(** * Generation classifier of the CPU specification catalog

    Shallow embedding of [determine_cpu_generation] (src/utils.py) and the
    properties its specification states about it.

    Modelling conventions.
    - A Python [str] is a [string]; the primitives [upper], [strip], the
      substring test [in] and the pattern [\d{4}] are given on the ASCII
      range, where they agree with Python (letters a-z are raised, the
      blanks are 9-13, 28-31 and 32, the digits are 0-9).  Characters
      above 127 are carried along unchanged; a statement that depends on
      what Python does with them beyond that names the strings it needs
      to be ASCII ([is_ascii]).
    - [launch_year] of the declared type is [option Z]: [None] is
      Python's [None], [Some z] an [int]; [year_value] adds the floats
      that callers pass, and [determine_cpu_generation_on] gives the
      function for a year of any type.  [family] is [option string], its
      default being [None].
    - Exceptions are explicit: an [outcome] is a returned value or a
      raised exception, and the [try]/[except (ValueError, TypeError)]
      block is a handler over it. *)

From Stdlib Require Import ZArith Lia Bool List Ascii String.
Import ListNotations.

Open Scope string_scope.
Open Scope Z_scope.

(** ** Python values and exceptions *)

Module Py.

Inductive exn : Type :=
| ValueError
| TypeError
| ZeroDivisionError
| OverflowError.

Inductive outcome (A : Type) : Type :=
| Return (a : A)
| Raise (e : exn).

Arguments Return {A} a.
Arguments Raise {A} e.

Definition bind {A B : Type} (m : outcome A) (k : A -> outcome B) : outcome B :=
  match m with
  | Return a => k a
  | Raise e => Raise e
  end.

(** [except (ValueError, TypeError): pass]: the two classes are absorbed
    and control continues after the block with no value; any other class
    propagates. *)
Definition except_value_type {A : Type} (m : outcome (option A)) : outcome (option A) :=
  match m with
  | Return r => Return r
  | Raise ValueError => Return None
  | Raise TypeError => Return None
  | Raise e => Raise e
  end.

(** *** Characters *)

Definition code (c : ascii) : N := N_of_ascii c.

Definition islower (c : ascii) : bool := ((97 <=? code c) && (code c <=? 122))%N.

Definition isdigit (c : ascii) : bool := ((48 <=? code c) && (code c <=? 57))%N.

Definition isspace (c : ascii) : bool :=
  (((9 <=? code c) && (code c <=? 13))
   || ((28 <=? code c) && (code c <=? 31))
   || (code c =? 32))%N.

Definition upper_char (c : ascii) : ascii :=
  if islower c then ascii_of_N (code c - 32) else c.

(** *** str methods *)

Fixpoint upper (s : string) : string :=
  match s with
  | EmptyString => EmptyString
  | String c s' => String (upper_char c) (upper s')
  end.

Fixpoint lstrip (s : string) : string :=
  match s with
  | EmptyString => EmptyString
  | String c s' => if isspace c then lstrip s' else s
  end.

Fixpoint rstrip (s : string) : string :=
  match s with
  | EmptyString => EmptyString
  | String c s' =>
      match rstrip s' with
      | EmptyString => if isspace c then EmptyString else String c EmptyString
      | r => String c r
      end
  end.

Definition strip (s : string) : string := rstrip (lstrip s).

Fixpoint startswith (s p : string) : bool :=
  match p, s with
  | EmptyString, _ => true
  | String _ _, EmptyString => false
  | String a p', String b s' => Ascii.eqb a b && startswith s' p'
  end.

(** [p in s] on strings: [p] occurs in [s] as a contiguous substring. *)
Fixpoint str_in (p s : string) : bool :=
  match s with
  | EmptyString => startswith EmptyString p
  | String _ s' => startswith s p || str_in p s'
  end.

(** Truth value of a [str]: only the empty string is false. *)
Definition truthy_str (s : string) : bool :=
  match s with
  | EmptyString => false
  | String _ _ => true
  end.

(** Truth value of an optional [int]: [None] and [0] are false. *)
Definition truthy_int (y : option Z) : bool :=
  match y with
  | None => false
  | Some z => negb (z =? 0)
  end.

(** [x or ""] for an optional string. *)
Definition or_empty (x : option string) : string :=
  match x with
  | Some s => if truthy_str s then s else EmptyString
  | None => EmptyString
  end.

(** *** Numbers *)

(** [int(x)] where [x] is an [int] or [None]. *)
Definition int_of_value (y : option Z) : outcome Z :=
  match y with
  | Some z => Return z
  | None => Raise TypeError
  end.

Definition digit_value (c : ascii) : Z := Z.of_N (code c) - 48.

Fixpoint int_of_digits_acc (acc : Z) (s : string) : outcome Z :=
  match s with
  | EmptyString => Return acc
  | String c s' =>
      if isdigit c then int_of_digits_acc (10 * acc + digit_value c) s'
      else Raise ValueError
  end.

(** [int(s)] for a string of decimal digits, as the regular expression
    hands it over; the empty string and any other character raise
    [ValueError]. *)
Definition int_of_str (s : string) : outcome Z :=
  match s with
  | EmptyString => Raise ValueError
  | _ => int_of_digits_acc 0 s
  end.

(** [a // b], floor division. *)
Definition floordiv (a b : Z) : outcome Z :=
  if b =? 0 then Raise ZeroDivisionError else Return (a / b).

(** *** The pattern [(\d{4})] *)

(** [n] digits at the head of [s], or no match. *)
Fixpoint match_digits (n : nat) (s : string) : option string :=
  match n with
  | O => Some EmptyString
  | S n' =>
      match s with
      | EmptyString => None
      | String c s' =>
          if isdigit c then option_map (String c) (match_digits n' s') else None
      end
  end.

(** [re.search(r'(\d{4})', s)]: the leftmost position at which four
    digits follow one another; the value is group 1 of the match. *)
Fixpoint re_search_d4 (s : string) : option string :=
  match s with
  | EmptyString => None
  | String _ s' =>
      match match_digits 4 s with
      | Some g => Some g
      | None => re_search_d4 s'
      end
  end.

End Py.

Import Py.

Notation "x <- m ;; k" := (bind m (fun x => k))
  (at level 61, m at next level, right associativity).

(** ** The classifier (src/utils.py) *)

(** The body of a branch either executes a [return] statement
    ([Some label]) or runs to its end without one ([None]). *)

(** Lines 32 and 58 and 120: the three vendor guards. *)
Definition is_epyc (cpu_model_upper family_upper : string) : bool :=
  str_in "EPYC" cpu_model_upper || str_in "EPYC" family_upper.

Definition is_xeon (cpu_model_upper family_upper : string) : bool :=
  str_in "XEON" cpu_model_upper || str_in "XEON" family_upper.

Definition is_legacy_xeon (cpu_model_upper family_upper : string) : bool :=
  str_in "XEON" family_upper
  && (str_in "E5" cpu_model_upper || str_in "E3" cpu_model_upper).

(** Lines 33-55: AMD EPYC. *)
Definition epyc_branch (cpu_model_upper : string) (year : Z) : option string :=
  if str_in "EPYC 7" cpu_model_upper || str_in "7" cpu_model_upper then
    if year =? 2017 then Some "Naples"
    else if (year =? 2019) || (year =? 2020) then Some "Rome"
    else if (year =? 2021) || (year =? 2022) then Some "Milan"
    else None
  else if str_in "EPYC 9" cpu_model_upper
          || (str_in "9" cpu_model_upper && str_in "EPYC" cpu_model_upper) then
    if (year =? 2022) || (year =? 2023) then Some "Genoa" else None
  else if str_in "EPYC 8" cpu_model_upper then
    if year >=? 2023 then Some "Siena" else None
  else if str_in "EPYC 4" cpu_model_upper then
    if year =? 2023 then Some "Genoa" else None
  else None.

(** Lines 76-104: the series table applied to the model number. *)
Definition xeon_series (model_num first_digit year : Z) : option string :=
  if first_digit =? 8 then
    if (year =? 2017) || (year =? 2018) then Some "Skylake"
    else if (year =? 2023) || (year =? 2024) then
      if (model_num >=? 8500) && (model_num <? 8600) then
        Some (if year =? 2023 then "Sapphire Rapids" else "Emerald Rapids")
      else if model_num >=? 8600 then Some "Emerald Rapids"
      else Some "Sapphire Rapids"
    else None
  else if first_digit =? 6 then
    if (year =? 2019) || (year =? 2020) then Some "Cascade Lake" else None
  else if first_digit =? 5 then
    if year =? 2021 then Some "Ice Lake" else None
  else if first_digit =? 4 then
    if year =? 2021 then Some "Ice Lake" else None
  else None.

(** Lines 70-104: the model-number step. *)
Definition xeon_model_step (cpu_model_upper : string) (year : Z)
  : outcome (option string) :=
  match re_search_d4 cpu_model_upper with
  | Some group1 =>
      model_num <- int_of_str group1 ;;
      first_digit <- floordiv model_num 1000 ;;
      Return (xeon_series model_num first_digit year)
  | None => Return None
  end.

(** Lines 107-117: the family fallback. *)
Definition xeon_fallback (family_upper : string) (year : Z) : option string :=
  if str_in "SCALABLE" family_upper || str_in "GOLD" family_upper
     || str_in "PLATINUM" family_upper || str_in "SILVER" family_upper then
    if (year =? 2017) || (year =? 2018) then Some "Skylake"
    else if (year =? 2019) || (year =? 2020) then Some "Cascade Lake"
    else if year =? 2021 then Some "Ice Lake"
    else if year =? 2023 then Some "Sapphire Rapids"
    else if year =? 2024 then Some "Emerald Rapids"
    else None
  else None.

(** Lines 59-117: Intel Xeon. *)
Definition xeon_branch (cpu_model_upper family_upper : string) (year : Z)
  : outcome (option string) :=
  r <- xeon_model_step cpu_model_upper year ;;
  match r with
  | Some label => Return (Some label)
  | None => Return (xeon_fallback family_upper year)
  end.

(** Lines 121-132: legacy Intel Xeon. *)
Definition legacy_branch (cpu_model_upper : string) (year : Z) : option string :=
  if str_in "V2" cpu_model_upper || str_in "V 2" cpu_model_upper then
    if year =? 2013 then Some "Ivy Bridge" else None
  else if str_in "V3" cpu_model_upper || str_in "V 3" cpu_model_upper then
    if year =? 2014 then Some "Haswell" else None
  else if str_in "V4" cpu_model_upper || str_in "V 4" cpu_model_upper then
    if year =? 2016 then Some "Broadwell" else None
  else None.

(** Lines 32-132: the [if]/[elif] chain over the vendors. *)
Definition vendor_dispatch (cpu_model_upper family_upper : string) (year : Z)
  : outcome (option string) :=
  if is_epyc cpu_model_upper family_upper then
    Return (epyc_branch cpu_model_upper year)
  else if is_xeon cpu_model_upper family_upper then
    xeon_branch cpu_model_upper family_upper year
  else if is_legacy_xeon cpu_model_upper family_upper then
    Return (legacy_branch cpu_model_upper year)
  else Return None.

(** Lines 29-132: the body of the [try] statement. *)
Definition try_body (cpu_model_upper family_upper : string) (launch_year : option Z)
  : outcome (option string) :=
  year <- int_of_value launch_year ;;
  vendor_dispatch cpu_model_upper family_upper year.

(** Line 22: [not cpu_model or not launch_year]. *)
Definition degenerate (cpu_model : string) (launch_year : option Z) : bool :=
  negb (truthy_str cpu_model) || negb (truthy_int launch_year).

(** Lines 25-26. *)
Definition normalize (s : string) : string := strip (upper s).

(** Line 137: a block that ended without a [return] statement reaches the
    final [return ""]. *)
Definition or_unknown (r : option string) : string :=
  match r with
  | Some label => label
  | None => ""
  end.

(** Lines 6-137. *)
Definition determine_cpu_generation
  (cpu_model : string) (launch_year : option Z) (family : option string)
  : outcome string :=
  if degenerate cpu_model launch_year then Return ""
  else
    let cpu_model_upper := normalize cpu_model in
    let family_upper := normalize (or_empty family) in
    r <- except_value_type (try_body cpu_model_upper family_upper launch_year) ;;
    Return (or_unknown r).

(** Lines 141-143: the alias kept for backward compatibility. *)
Definition determine_epyc_generation
  (cpu_model : string) (launch_year : option Z) (family : option string)
  : outcome string :=
  determine_cpu_generation cpu_model launch_year family.

(** ** The year as the callers pass it *)

(** A Python float, as far as the classifier looks at it: NaN, an
    infinity, or the finite value [mantissa * 2 ^ exponent]. *)
Inductive py_float : Type :=
| FNaN
| FInf (negative : bool)
| FFinite (mantissa exponent : Z).

(** What reaches [launch_year]: the declared [int], [None], or a float
    (the CSV import hands over what [clean_number] returns, and the
    column of the database holds what was stored). *)
Inductive year_value : Type :=
| YNone
| YInt (z : Z)
| YFloat (x : py_float).

(** Truth value of a float: only the zeros are false. *)
Definition truthy_float (x : py_float) : bool :=
  match x with
  | FNaN => true
  | FInf _ => true
  | FFinite mantissa _ => negb (mantissa =? 0)
  end.

Definition truthy_year (v : year_value) : bool :=
  match v with
  | YNone => false
  | YInt z => negb (z =? 0)
  | YFloat x => truthy_float x
  end.

(** [int(x)] for a float: truncation towards zero, [ValueError] on NaN
    and [OverflowError] on an infinity. *)
Definition int_of_py_float (x : py_float) : outcome Z :=
  match x with
  | FNaN => Raise ValueError
  | FInf _ => Raise OverflowError
  | FFinite mantissa exponent =>
      Return (if 0 <=? exponent then mantissa * 2 ^ exponent
              else Z.quot mantissa (2 ^ (- exponent)))
  end.

(** [int(launch_year)]. *)
Definition int_of_year (v : year_value) : outcome Z :=
  match v with
  | YNone => Raise TypeError
  | YInt z => Return z
  | YFloat x => int_of_py_float x
  end.

(** A year of the declared type as a value. *)
Definition of_declared (launch_year : option Z) : year_value :=
  match launch_year with
  | Some z => YInt z
  | None => YNone
  end.

(** Lines 22-137 in terms of the two things the function asks of
    [launch_year], whatever its type: its truth value (line 22) and the
    outcome of [int(launch_year)] (line 29). *)
Definition determine_cpu_generation_on
  (cpu_model : string) (year_truthy : bool) (year_int : outcome Z)
  (family : option string) : outcome string :=
  if negb (truthy_str cpu_model) || negb year_truthy then Return ""
  else
    let cpu_model_upper := normalize cpu_model in
    let family_upper := normalize (or_empty family) in
    r <- except_value_type
           (year <- year_int ;; vendor_dispatch cpu_model_upper family_upper year) ;;
    Return (or_unknown r).

(** Lines 6-137 on a year that is [None], an [int] or a [float]. *)
Definition determine_cpu_generation_any_year
  (cpu_model : string) (launch_year : year_value) (family : option string)
  : outcome string :=
  determine_cpu_generation_on cpu_model (truthy_year launch_year)
    (int_of_year launch_year) family.

(** ** The stored record (src/database.py) *)

Module Db.

(** Lines 22-37: a row of [cpu_specs].  The key is [None] until the
    database assigns it; every other column is nullable.  The three
    Float columns are only stored and copied, so the type of floats is a
    parameter; [launch_year] holds what was stored in it, an integer or
    a float. *)
Record CPUSpec (float : Type) : Type := {
  id : option Z;
  cpu_model_name : option string;
  family : option string;
  cpu_model : option string;
  codename : option string;
  cores : option Z;
  threads : option Z;
  tdp_watts : option Z;
  launch_year : year_value;
  max_turbo_frequency_ghz : option float;
  l3_cache_mb : option float;
  max_memory_tb : option float }.

Arguments id {float} _.
Arguments cpu_model_name {float} _.
Arguments family {float} _.
Arguments cpu_model {float} _.
Arguments codename {float} _.
Arguments cores {float} _.
Arguments threads {float} _.
Arguments tdp_watts {float} _.
Arguments launch_year {float} _.
Arguments max_turbo_frequency_ghz {float} _.
Arguments l3_cache_mb {float} _.
Arguments max_memory_tb {float} _.

(** [cpu.codename = value]. *)
Definition set_codename {float : Type} (cpu : CPUSpec float) (value : option string)
  : CPUSpec float :=
  {| id := id cpu;
     cpu_model_name := cpu_model_name cpu;
     family := family cpu;
     cpu_model := cpu_model cpu;
     codename := value;
     cores := cores cpu;
     threads := threads cpu;
     tdp_watts := tdp_watts cpu;
     launch_year := launch_year cpu;
     max_turbo_frequency_ghz := max_turbo_frequency_ghz cpu;
     l3_cache_mb := l3_cache_mb cpu;
     max_memory_tb := max_memory_tb cpu |}.

(** The key the database gives a row when it is committed. *)
Definition set_id {float : Type} (cpu : CPUSpec float) (value : option Z)
  : CPUSpec float :=
  {| id := value;
     cpu_model_name := cpu_model_name cpu;
     family := family cpu;
     cpu_model := cpu_model cpu;
     codename := codename cpu;
     cores := cores cpu;
     threads := threads cpu;
     tdp_watts := tdp_watts cpu;
     launch_year := launch_year cpu;
     max_turbo_frequency_ghz := max_turbo_frequency_ghz cpu;
     l3_cache_mb := l3_cache_mb cpu;
     max_memory_tb := max_memory_tb cpu |}.

End Db.

(** Truth value of an optional [str]: [None] and the empty string are
    false. *)
Definition truthy_opt_str (x : option string) : bool :=
  match x with
  | Some s => truthy_str s
  | None => false
  end.

(** [x or None] for a string. *)
Definition or_none (s : string) : option string :=
  if truthy_str s then Some s else None.

(** ** The backfill (src/update_generations.py) *)

Section Backfill.

Context {float : Type}.

(** Lines 20-28: the body of the loop, on one row and the counter. *)
Definition update_codename (cpu : Db.CPUSpec float) (updated_count : Z)
  : outcome (Db.CPUSpec float * Z) :=
  if negb (truthy_opt_str (Db.codename cpu)) && truthy_opt_str (Db.cpu_model cpu)
     && truthy_year (Db.launch_year cpu) then
    match Db.cpu_model cpu with
    | Some cpu_model =>
        codename <- determine_cpu_generation_any_year cpu_model (Db.launch_year cpu)
                      (Db.family cpu) ;;
        if truthy_str codename then
          Return (Db.set_codename cpu (Some codename), updated_count + 1)
        else Return (cpu, updated_count)
    | None => Return (cpu, updated_count)
    end
  else Return (cpu, updated_count).

(** Lines 19-28: the loop over the rows. *)
Fixpoint update_loop (cpus : list (Db.CPUSpec float)) (updated_count : Z)
  : outcome (list (Db.CPUSpec float) * Z) :=
  match cpus with
  | [] => Return ([], updated_count)
  | cpu :: rest =>
      step <- update_codename cpu updated_count ;;
      others <- update_loop rest (snd step) ;;
      Return (fst step :: fst others, snd others)
  end.

(** Lines 12-39: the table after the call and the count it reports.  The
    rows are committed when the loop ends; an exception rolls the table
    back and is raised again.  The calls of the session itself (query,
    commit, rollback, close) are taken to succeed. *)
Definition update_all_codenames (table : list (Db.CPUSpec float))
  : list (Db.CPUSpec float) * outcome Z :=
  match update_loop table 0 with
  | Return (cpus, updated_count) => (cpus, Return updated_count)
  | Raise e => (table, Raise e)
  end.

End Backfill.

(** ** Record creation (src/app.py) *)

Module Api.

(** Lines 261-273: the request model of a new record. *)
Record CPUSpecCreate (float : Type) : Type := {
  cpu_model_name : string;
  family : option string;
  cpu_model : option string;
  codename : option string;
  cores : option Z;
  threads : option Z;
  max_turbo_frequency_ghz : option float;
  l3_cache_mb : option float;
  tdp_watts : option Z;
  launch_year : option Z;
  max_memory_tb : option float }.

Arguments cpu_model_name {float} _.
Arguments family {float} _.
Arguments cpu_model {float} _.
Arguments codename {float} _.
Arguments cores {float} _.
Arguments threads {float} _.
Arguments max_turbo_frequency_ghz {float} _.
Arguments l3_cache_mb {float} _.
Arguments tdp_watts {float} _.
Arguments launch_year {float} _.
Arguments max_memory_tb {float} _.

End Api.

Section Creation.

Context {float : Type}.

(** Lines 299-301: the codename of the new row. *)
Definition create_cpu_codename (cpu : Api.CPUSpecCreate float) : outcome (option string) :=
  let codename := Api.codename cpu in
  if negb (truthy_opt_str codename) && truthy_opt_str (Api.cpu_model cpu)
     && truthy_int (Api.launch_year cpu) then
    match Api.cpu_model cpu with
    | Some cpu_model =>
        label <- determine_cpu_generation cpu_model (Api.launch_year cpu)
                   (Api.family cpu) ;;
        Return (or_none label)
    | None => Return codename
    end
  else Return codename.

(** Lines 299-315: the construction of the row that is handed to the
    session.  The calls that follow it (add, commit, refresh), in which
    the database gives the row its key or refuses it, are not part of
    this function. *)
Definition create_cpu (cpu : Api.CPUSpecCreate float) : outcome (Db.CPUSpec float) :=
  codename <- create_cpu_codename cpu ;;
  Return {| Db.id := None;
            Db.cpu_model_name := Some (Api.cpu_model_name cpu);
            Db.family := Api.family cpu;
            Db.cpu_model := Api.cpu_model cpu;
            Db.codename := codename;
            Db.cores := Api.cores cpu;
            Db.threads := Api.threads cpu;
            Db.tdp_watts := Api.tdp_watts cpu;
            Db.launch_year := of_declared (Api.launch_year cpu);
            Db.max_turbo_frequency_ghz := Api.max_turbo_frequency_ghz cpu;
            Db.l3_cache_mb := Api.l3_cache_mb cpu;
            Db.max_memory_tb := Api.max_memory_tb cpu |}.

End Creation.

(** ** Tokens (src/auth.py) *)

Module Auth.

(** What a request handler ends with: a value, or an [HTTPException]
    with its status code and detail. *)
Inductive response (A : Type) : Type :=
| Ok (a : A)
| HTTPException (status_code : Z) (detail : string).

Arguments Ok {A} a.
Arguments HTTPException {A} status_code detail.

(** [token in ADMIN_TOKENS]; the set is kept as a list of its members. *)
Definition mem (token : string) (ADMIN_TOKENS : list string) : bool :=
  existsb (String.eqb token) ADMIN_TOKENS.

(** Lines 63-65: [ADMIN_TOKENS.add(token)]. *)
Definition add_admin_token (token : string) (ADMIN_TOKENS : list string)
  : list string :=
  if mem token ADMIN_TOKENS then ADMIN_TOKENS else token :: ADMIN_TOKENS.

(** Lines 68-70: [ADMIN_TOKENS.discard(token)]. *)
Definition remove_admin_token (token : string) (ADMIN_TOKENS : list string)
  : list string :=
  filter (fun t => negb (String.eqb t token)) ADMIN_TOKENS.

Section Verification.

(** [jwt_decodes token] holds when [jwt.decode] of line 46 accepts the
    token under the module's key at the time of the call, and fails with
    [JWTError] otherwise. *)
Variable jwt_decodes : string -> bool.
Variable DEFAULT_ADMIN_TOKEN : string.

(** Lines 41-55. *)
Definition verify_token (ADMIN_TOKENS : list string) (token : string)
  : response string :=
  if jwt_decodes token then Ok token
  else if String.eqb token DEFAULT_ADMIN_TOKEN || mem token ADMIN_TOKENS then Ok token
  else HTTPException 401 "Invalid authentication token".

End Verification.

(** A value of a token payload: a string, or a point in time, counted
    in microseconds as [datetime] and [timedelta] do. *)
Inductive claim : Type :=
| Str (s : string)
| Time (t : Z).

(** A [dict] with string keys, in insertion order. *)
Definition payload : Type := list (string * claim).


(** [d.update({key: value})]. *)
Fixpoint dict_update (key : string) (value : claim) (d : payload) : payload :=
  match d with
  | [] => [(key, value)]
  | (k, v) :: d' =>
      if String.eqb k key then (key, value) :: d'
      else (k, v) :: dict_update key value d'
  end.

(** Line 21. *)
Definition ACCESS_TOKEN_EXPIRE_MINUTES : Z := 60 * 24 * 7.

(** [timedelta(minutes=n)]. *)
Definition timedelta_minutes (n : Z) : Z := n * 60 * 1000000.

(** Truth value of an optional [timedelta]: [None] and the zero
    duration are false. *)
Definition truthy_delta (expires_delta : option Z) : bool :=
  match expires_delta with
  | Some d => negb (d =? 0)
  | None => false
  end.




(** Lines 29-36: the payload handed to [jwt.encode], for a call whose
    expiry time lies in the range of [datetime]; [utcnow] is the value
    of [datetime.utcnow()] at the call. *)
Definition access_token_payload
  (utcnow : Z) (data : payload) (expires_delta : option Z) : payload :=
  let to_encode := data in
  let expire :=
    match expires_delta with
    | Some d =>
        if truthy_delta expires_delta then utcnow + d
        else utcnow + timedelta_minutes ACCESS_TOKEN_EXPIRE_MINUTES
    | None => utcnow + timedelta_minutes ACCESS_TOKEN_EXPIRE_MINUTES
    end in
  dict_update "exp" (Time expire) to_encode.

Section Issue.

(** [jwt.encode(_, SECRET_KEY, algorithm=ALGORITHM)]. *)
Variable jwt_encode : payload -> string.

(** Lines 27-38. *)
Definition create_access_token
  (utcnow : Z) (data : payload) (expires_delta : option Z) : string :=
  jwt_encode (access_token_payload utcnow data expires_delta).

End Issue.

End Auth.

(** ** Access gates (src/app.py) *)

Module App.

(** [a != b] for two optional strings. *)
Definition opt_str_neq (a b : option string) : bool :=
  match a, b with
  | Some x, Some y => negb (String.eqb x y)
  | None, None => false
  | _, _ => true
  end.

(** Lines 98-116.  [environ] is [os.environ.get]; the value served is
    the path of the page. *)
Definition admin_panel (environ : string -> option string) (secret : option string)
  : Auth.response string :=
  let admin_secret := environ "ADMIN_SECRET" in
  if truthy_opt_str admin_secret then
    if negb (truthy_opt_str secret) || opt_str_neq secret admin_secret then
      Auth.HTTPException 403 "Access denied. Admin panel requires a valid secret key."
    else Auth.Ok "static/admin.html"
  else Auth.Ok "static/admin.html".

Section Login.

Variable jwt_encode : Auth.payload -> string.

(** Lines 200-228; the response is the dictionary of the handler. *)
Definition login (environ : string -> option string) (utcnow : Z) (password : string)
  : Auth.response (list (string * string)) :=
  let admin_password := environ "ADMIN_PASSWORD" in
  if negb (truthy_opt_str admin_password) then
    Auth.HTTPException 500
      "Admin password not configured. Set ADMIN_PASSWORD environment variable."
  else if opt_str_neq (Some password) admin_password then
    Auth.HTTPException 401 "Invalid password"
  else
    let access_token :=
      Auth.create_access_token jwt_encode utcnow [("sub", Auth.Str "admin")] None in
    Auth.Ok [("access_token", access_token);
             ("token_type", "bearer");
             ("message", "Use this token in the Authorization header: Bearer <token>")].

End Login.

End App.

(** ** Numbers read from the CSV file (src/import_data.py) *)

Module ImportData.

(** [s.replace(old, new)] for two one-character strings. *)
Fixpoint replace_char (old new : ascii) (s : string) : string :=
  match s with
  | EmptyString => EmptyString
  | String c s' =>
      String (if Ascii.eqb c old then new else c) (replace_char old new s')
  end.

Section CleanNumber.

(** Python's floats enter through three operations: [float(s)], which
    raises [ValueError] on text it cannot read, [num.is_integer()], and
    [int(num)], which is called on integral values only. *)
Context {float : Type}.
Variable float_of_str : string -> outcome float.
Variable is_integer : float -> bool.
Variable int_of_float : float -> Z.

Inductive number : Type :=
| Int (z : Z)
| Float (x : float).

(** Lines 12-23. *)
Definition clean_number (value : option string) (default : option number)
  : outcome (option number) :=
  match value with
  | None => Return default
  | Some s =>
      if negb (truthy_str s) || String.eqb (strip s) "" then Return default
      else
        let value := replace_char "," "." (strip s) in
        match float_of_str value with
        | Return num =>
            Return (Some (if is_integer num then Int (int_of_float num) else Float num))
        | Raise ValueError => Return default
        | Raise e => Raise e
        end
  end.

End CleanNumber.

End ImportData.

(** ** Auxiliary definitions of the statements *)

(** [s] holds no blank. *)
Fixpoint no_blank (s : string) : bool :=
  match s with
  | EmptyString => true
  | String c s' => negb (isspace c) && no_blank s'
  end.

(** The labels some [return] statement of the Xeon and EPYC branches
    carries, and the empty string. *)
Definition reachable_labels : list string :=
  [""; "Naples"; "Rome"; "Milan"; "Genoa"; "Siena"; "Skylake"; "Cascade Lake";
   "Ice Lake"; "Sapphire Rapids"; "Emerald Rapids"].

(** The launch years for which the source carries a [return] statement
    of the label. *)
Definition label_years (label : string) (year : Z) : Prop :=
  (label = "Naples" -> year = 2017)
  /\ (label = "Rome" -> year = 2019 \/ year = 2020)
  /\ (label = "Milan" -> year = 2021 \/ year = 2022)
  /\ (label = "Genoa" -> year = 2022 \/ year = 2023)
  /\ (label = "Siena" -> 2023 <= year)
  /\ (label = "Skylake" -> year = 2017 \/ year = 2018)
  /\ (label = "Cascade Lake" -> year = 2019 \/ year = 2020)
  /\ (label = "Ice Lake" -> year = 2021)
  /\ (label = "Sapphire Rapids" -> year = 2023 \/ year = 2024)
  /\ (label = "Emerald Rapids" -> year = 2023 \/ year = 2024).

(** The four family keywords of line 107. *)
Definition scalable_family (family_upper : string) : bool :=
  str_in "SCALABLE" family_upper || str_in "GOLD" family_upper
  || str_in "PLATINUM" family_upper || str_in "SILVER" family_upper.

(** Every character of [s] is an ASCII character, the range on which
    [upper], [strip] and the digit class are given as Python has them. *)
Fixpoint is_ascii (s : string) : bool :=
  match s with
  | EmptyString => true
  | String c s' => (code c <? 128)%N && is_ascii s'
  end.



Section BackfillStatements.

Context {float : Type}.

(** The backfill has nothing to do on the row: it has a codename, or no
    model, or no year, or the classifier has no label for it. *)
Definition settled (cpu : Db.CPUSpec float) : Prop :=
  truthy_opt_str (Db.codename cpu) = true
  \/ truthy_opt_str (Db.cpu_model cpu) = false
  \/ truthy_year (Db.launch_year cpu) = false
  \/ exists cpu_model,
      Db.cpu_model cpu = Some cpu_model
      /\ determine_cpu_generation_any_year cpu_model (Db.launch_year cpu)
           (Db.family cpu)
         = Return "".

(** [cpu'] is [cpu] with its empty codename replaced by the label the
    classifier gives for its model, year and family. *)
Definition filled (cpu cpu' : Db.CPUSpec float) : Prop :=
  truthy_opt_str (Db.codename cpu) = false
  /\ exists cpu_model label,
      Db.cpu_model cpu = Some cpu_model
      /\ determine_cpu_generation_any_year cpu_model (Db.launch_year cpu)
           (Db.family cpu)
         = Return label
      /\ label <> ""
      /\ cpu' = Db.set_codename cpu (Some label).

(** The row has no codename but a model, and its year is an infinite
    float: the classifier is called on it and raises. *)
Definition overflows (cpu : Db.CPUSpec float) : bool :=
  negb (truthy_opt_str (Db.codename cpu)) && truthy_opt_str (Db.cpu_model cpu)
  && match Db.launch_year cpu with
     | YFloat (FInf _) => true
     | _ => false
     end.

(** The number of rows without a codename. *)
Definition unlabelled (table : list (Db.CPUSpec float)) : Z :=
  Z.of_nat (List.length
              (filter (fun cpu => negb (truthy_opt_str (Db.codename cpu))) table)).

End BackfillStatements.

(** A stored row for an EPYC part without a codename. *)
Definition naples_row : Db.CPUSpec unit :=
  {| Db.id := Some 1;
     Db.cpu_model_name := Some "AMD EPYC 7301";
     Db.family := Some "AMD EPYC";
     Db.cpu_model := Some "EPYC 7301";
     Db.codename := None;
     Db.cores := Some 16;
     Db.threads := Some 32;
     Db.tdp_watts := Some 170;
     Db.launch_year := YInt 2017;
     Db.max_turbo_frequency_ghz := None;
     Db.l3_cache_mb := None;
     Db.max_memory_tb := None |}.

(** The same row with the year the importer stores for the text "inf". *)
Definition infinite_year_row : Db.CPUSpec unit :=
  {| Db.id := Some 2;
     Db.cpu_model_name := Some "AMD EPYC 7301";
     Db.family := Some "AMD EPYC";
     Db.cpu_model := Some "EPYC 7301";
     Db.codename := None;
     Db.cores := Some 16;
     Db.threads := Some 32;
     Db.tdp_watts := Some 170;
     Db.launch_year := YFloat (FInf false);
     Db.max_turbo_frequency_ghz := None;
     Db.l3_cache_mb := None;
     Db.max_memory_tb := None |}.

(** A request for an EPYC part without a codename. *)
Definition naples_request : Api.CPUSpecCreate unit :=
  {| Api.cpu_model_name := "AMD EPYC 7301";
     Api.family := Some "AMD EPYC";
     Api.cpu_model := Some "EPYC 7301";
     Api.codename := None;
     Api.cores := Some 16;
     Api.threads := Some 32;
     Api.max_turbo_frequency_ghz := None;
     Api.l3_cache_mb := None;
     Api.tdp_watts := Some 170;
     Api.launch_year := Some 2017;
     Api.max_memory_tb := None |}.

(** ** Proof automation *)

Ltac break_ifs :=
  repeat match goal with
         | |- context [if ?b then _ else _] => destruct b
         end.

Ltac in_labels := unfold reachable_labels; simpl; tauto.

(** Walks down the [if] chain at the head of an equation in the goal,
    keeping each test as a hypothesis. *)
Ltac walk_ifs :=
  repeat lazymatch goal with
         | |- (if ?c then _ else _) = _ -> _ => destruct c eqn:?
         end.

(** Turns the boolean tests on integers among the hypotheses into
    arithmetic. *)
Ltac to_arith :=
  repeat match goal with
         | H : (_ || _) = true |- _ => apply orb_true_iff in H
         | H : (_ || _) = false |- _ => apply orb_false_iff in H; destruct H
         | H : (_ && _) = true |- _ => apply andb_true_iff in H; destruct H
         | H : (_ && _) = false |- _ => apply andb_false_iff in H
         | H : (_ =? _) = true |- _ => apply Z.eqb_eq in H
         | H : (_ =? _) = false |- _ => apply Z.eqb_neq in H
         | H : (_ >=? _) = _ |- _ => rewrite Z.geb_leb in H
         | H : (_ <=? _) = true |- _ => apply Z.leb_le in H
         | H : (_ <=? _) = false |- _ => apply Z.leb_gt in H
         | H : (_ <? _) = true |- _ => apply Z.ltb_lt in H
         | H : (_ <? _) = false |- _ => apply Z.ltb_ge in H
         end.

(** Case analysis on the integer tests of the goal, dropping the cases
    that contradict the hypotheses as they appear. *)
Ltac zcases :=
  repeat (match goal with
          | |- context [Z.geb ?a ?b] => rewrite (Z.geb_leb a b)
          | |- context [Z.eqb ?a ?b] => destruct (Z.eqb_spec a b)
          | |- context [Z.leb ?a ?b] => destruct (Z.leb_spec a b)
          | |- context [Z.ltb ?a ?b] => destruct (Z.ltb_spec a b)
          end; cbn [orb andb negb]; cbv iota; try (exfalso; lia)).

Ltac zbool :=
  repeat match goal with
         | |- context [Z.geb ?a ?b] => rewrite (Z.geb_leb a b)
         | |- context [Z.eqb ?a ?b] => destruct (Z.eqb_spec a b)
         | |- context [Z.leb ?a ?b] => destruct (Z.leb_spec a b)
         | |- context [Z.ltb ?a ?b] => destruct (Z.ltb_spec a b)
         end;
  simpl; try reflexivity; try lia.

(** ** The rule table on the specification's literal cases *)

Example naples_7301 :
  determine_cpu_generation "EPYC 7301" (Some 2017) (Some "AMD EPYC") = Return "Naples".
Proof. reflexivity. Qed.

Example genoa_9354 :
  determine_cpu_generation "EPYC 9354" (Some 2023) (Some "AMD EPYC") = Return "Genoa".
Proof. reflexivity. Qed.

Example cascade_lake_6240 :
  determine_cpu_generation "Gold 6240" (Some 2019) (Some "Intel Xeon Gold")
  = Return "Cascade Lake".
Proof. reflexivity. Qed.

Example lower_case_and_blanks :
  determine_cpu_generation "  epyc 8124p " (Some 2025) None = Return "Siena".
Proof. reflexivity. Qed.

(** ** Facts about the string primitives *)

Section Characters.

Local Ltac by_cases_on c :=
  destruct c as [b0 b1 b2 b3 b4 b5 b6 b7];
  destruct b0, b1, b2, b3, b4, b5, b6, b7; vm_compute; intuition congruence.

Lemma digit_not_space (c : ascii) : isdigit c = true -> isspace c = false.
Proof. by_cases_on c. Qed.

Lemma upper_char_digit (c : ascii) : isdigit (upper_char c) = isdigit c.
Proof. by_cases_on c. Qed.

Lemma upper_char_fixes_digit (c : ascii) : isdigit c = true -> upper_char c = c.
Proof. by_cases_on c. Qed.

End Characters.

Section Substrings.

Lemma startswith_upper (p s : string) :
  startswith s p = true -> startswith (upper s) (upper p) = true.
Proof.
  revert s; induction p as [|a p IH]; intros [|b s]; simpl; auto; try discriminate.
  intros H; apply andb_true_iff in H as [Hab Hp].
  apply Ascii.eqb_eq in Hab; subst b.
  now rewrite Ascii.eqb_refl, IH.
Qed.

Lemma str_in_upper (p s : string) :
  str_in p s = true -> str_in (upper p) (upper s) = true.
Proof.
  induction s as [|b s IH]; simpl.
  - destruct p; simpl; auto.
  - intros H; apply orb_true_iff in H as [H|H].
    + apply (startswith_upper p (String b s)) in H; simpl in H.
      now rewrite H.
    + rewrite (IH H); apply orb_true_r.
Qed.

Lemma str_in_nonempty (p s : string) :
  p <> "" -> str_in p s = true -> s <> "".
Proof. intros Hp H ->; destruct p; simpl in H; congruence. Qed.

Lemma rstrip_cons_nonblank (c : ascii) (s : string) :
  isspace c = false -> rstrip (String c s) = String c (rstrip s).
Proof. intros Hc; simpl; rewrite Hc; now destruct (rstrip s). Qed.

Lemma rstrip_cons_nonempty (c : ascii) (s : string) :
  rstrip s <> "" -> rstrip (String c s) = String c (rstrip s).
Proof. intros Hs; simpl; destruct (rstrip s); congruence. Qed.

Lemma startswith_rstrip (p s : string) :
  no_blank p = true -> startswith s p = true -> startswith (rstrip s) p = true.
Proof.
  revert s; induction p as [|a p IH]; intros s Hp H.
  - now destruct (rstrip s).
  - destruct s as [|b s]; simpl in H; [discriminate|].
    simpl in Hp; apply andb_true_iff in Hp as [Ha Hp].
    apply andb_true_iff in H as [Hab H].
    apply Ascii.eqb_eq in Hab; subst b.
    rewrite rstrip_cons_nonblank by now apply negb_true_iff.
    simpl; rewrite Ascii.eqb_refl; simpl; now apply IH.
Qed.

Lemma str_in_lstrip (p s : string) :
  p <> "" -> no_blank p = true -> str_in p s = true -> str_in p (lstrip s) = true.
Proof.
  intros Hne Hp; induction s as [|b s IH]; simpl; auto.
  intros H; destruct (isspace b) eqn:Hb; [|exact H].
  apply orb_true_iff in H as [H|H]; [|now apply IH].
  destruct p as [|a p]; [congruence|].
  simpl in H, Hp; apply andb_true_iff in H as [Hab _].
  apply Ascii.eqb_eq in Hab; subst b.
  rewrite Hb in Hp; discriminate.
Qed.

Lemma str_in_rstrip (p s : string) :
  p <> "" -> no_blank p = true -> str_in p s = true -> str_in p (rstrip s) = true.
Proof.
  intros Hne Hp; induction s as [|b s IH]; [auto|].
  intros H; change (startswith (String b s) p || str_in p s = true) in H.
  apply orb_true_iff in H as [H|H].
  - apply startswith_rstrip in H; [|exact Hp].
    destruct (rstrip (String b s)) as [|c r] eqn:E.
    + destruct p; [congruence | discriminate].
    + cbn [str_in]; now rewrite H.
  - specialize (IH H).
    rewrite rstrip_cons_nonempty by (eapply str_in_nonempty; eauto).
    cbn [str_in]; rewrite IH; apply orb_true_r.
Qed.

(** A marker written in capitals and without blanks that occurs in a raw
    string still occurs in its normal form. *)
Lemma str_in_normalize (p s : string) :
  p <> "" -> no_blank p = true -> upper p = p ->
  str_in p s = true -> str_in p (normalize s) = true.
Proof.
  intros Hne Hb Hu H; unfold normalize, strip.
  apply str_in_rstrip, str_in_lstrip; auto.
  rewrite <- Hu; now apply str_in_upper.
Qed.

End Substrings.

Section Pattern.

Lemma match_digits_upper (n : nat) (s : string) :
  match_digits n (upper s) = match_digits n s.
Proof.
  revert s; induction n as [|n IH]; intros [|c s]; simpl; auto.
  rewrite upper_char_digit; destruct (isdigit c) eqn:Hc; auto.
  now rewrite IH, upper_char_fixes_digit.
Qed.

Lemma re_search_d4_upper (s : string) : re_search_d4 (upper s) = re_search_d4 s.
Proof.
  induction s as [|c s IH]; [reflexivity|].
  change (upper (String c s)) with (String (upper_char c) (upper s)).
  unfold re_search_d4; fold re_search_d4.
  change (String (upper_char c) (upper s)) with (upper (String c s)).
  now rewrite match_digits_upper, IH.
Qed.

Lemma match_digits_blank (n : nat) (c : ascii) (s : string) :
  isspace c = true -> match_digits (S n) (String c s) = None.
Proof.
  intros Hc; simpl; destruct (isdigit c) eqn:Hd; auto.
  apply digit_not_space in Hd; congruence.
Qed.

Lemma re_search_d4_lstrip (s : string) : re_search_d4 (lstrip s) = re_search_d4 s.
Proof.
  induction s as [|c s IH]; [reflexivity|].
  simpl lstrip; destruct (isspace c) eqn:Hc; [|reflexivity].
  unfold re_search_d4 at 2; fold re_search_d4.
  now rewrite match_digits_blank.
Qed.

Lemma match_digits_rstrip (n : nat) (s : string) :
  match_digits n (rstrip s) = match_digits n s.
Proof.
  revert n; induction s as [|c s IH]; intros [|n]; try reflexivity.
  destruct (isdigit c) eqn:Hd.
  - rewrite rstrip_cons_nonblank by now apply digit_not_space.
    simpl; now rewrite Hd, IH.
  - transitivity (@None string); [|simpl; now rewrite Hd].
    simpl rstrip; destruct (rstrip s); [destruct (isspace c)|]; simpl;
      try reflexivity; now rewrite Hd.
Qed.

Lemma re_search_d4_rstrip (s : string) : re_search_d4 (rstrip s) = re_search_d4 s.
Proof.
  induction s as [|c s IH]; [reflexivity|].
  unfold re_search_d4 at 2; fold re_search_d4.
  rewrite <- (match_digits_rstrip 4 (String c s)), <- IH.
  simpl rstrip; destruct (rstrip s) as [|d r] eqn:E.
  - destruct (isspace c) eqn:Hc; [reflexivity|].
    unfold re_search_d4; fold re_search_d4.
    now destruct (match_digits 4 (String c "")).
  - reflexivity.
Qed.

(** Normalisation does not move the four digits the pattern finds. *)
Lemma re_search_d4_normalize (s : string) :
  re_search_d4 (normalize s) = re_search_d4 s.
Proof.
  unfold normalize, strip.
  now rewrite re_search_d4_rstrip, re_search_d4_lstrip, re_search_d4_upper.
Qed.

End Pattern.

(** ** Facts about the classifier *)

Section Classifier.

Lemma match_digits_parses (n : nat) (s g : string) :
  match_digits n s = Some g ->
  forall acc, exists v, int_of_digits_acc acc g = Return v.
Proof.
  revert s g; induction n as [|n IH]; intros s g H acc.
  - injection H as <-; now exists acc.
  - destruct s as [|c s]; simpl in H; [discriminate|].
    destruct (isdigit c) eqn:Hc; [|discriminate].
    destruct (match_digits n s) as [g'|] eqn:E; [|discriminate].
    injection H as <-; simpl; rewrite Hc; eauto.
Qed.

Lemma match_digits_nonempty (n : nat) (s g : string) :
  match_digits (S n) s = Some g -> g <> "".
Proof.
  destruct s as [|c s]; simpl; [discriminate|].
  destruct (isdigit c); [|discriminate].
  destruct (match_digits n s); simpl; congruence.
Qed.

Lemma re_search_d4_window (s g : string) :
  re_search_d4 s = Some g -> exists t, match_digits 4 t = Some g.
Proof.
  induction s as [|c s IH]; [discriminate|].
  unfold re_search_d4; fold re_search_d4.
  destruct (match_digits 4 (String c s)) as [g'|] eqn:E; [|exact IH].
  intros [= <-]; eauto.
Qed.

(** The group of a match is always accepted by [int]. *)
Lemma re_search_d4_parses (s g : string) :
  re_search_d4 s = Some g -> exists v, int_of_str g = Return v.
Proof.
  intros H; apply re_search_d4_window in H as [t Ht].
  pose proof (match_digits_nonempty _ _ _ Ht) as Hne.
  destruct (match_digits_parses _ _ _ Ht 0) as [v Hv].
  exists v; unfold int_of_str; destruct g; congruence.
Qed.

Lemma xeon_model_step_returns (m : string) (year : Z) :
  exists r, xeon_model_step m year = Return r.
Proof.
  unfold xeon_model_step.
  destruct (re_search_d4 m) as [g|] eqn:E; [|eauto].
  destruct (re_search_d4_parses _ _ E) as [v ->]; simpl; eauto.
Qed.

Lemma xeon_branch_returns (m f : string) (year : Z) :
  exists r, xeon_branch m f year = Return r.
Proof.
  unfold xeon_branch.
  destruct (xeon_model_step_returns m year) as [[l|] ->]; simpl; eauto.
Qed.

Lemma vendor_dispatch_returns (m f : string) (year : Z) :
  exists r, vendor_dispatch m f year = Return r.
Proof.
  unfold vendor_dispatch.
  destruct (is_epyc m f); [eauto|].
  destruct (is_xeon m f); [apply xeon_branch_returns|].
  destruct (is_legacy_xeon m f); eauto.
Qed.

Lemma degenerate_false (cpu_model : string) (year : Z) :
  cpu_model <> "" -> year <> 0 -> degenerate cpu_model (Some year) = false.
Proof.
  intros Hm Hy; unfold degenerate; destruct cpu_model; [congruence|]; simpl.
  now apply Z.eqb_neq in Hy as ->.
Qed.

(** Past the guard the result is what the vendor chain produced. *)
Lemma determine_by_dispatch (cpu_model : string) (year : Z) (family : option string)
      (r : option string) :
  cpu_model <> "" -> year <> 0 ->
  vendor_dispatch (normalize cpu_model) (normalize (or_empty family)) year = Return r ->
  determine_cpu_generation cpu_model (Some year) family = Return (or_unknown r).
Proof.
  intros Hm Hy H; unfold determine_cpu_generation.
  rewrite degenerate_false by assumption.
  unfold try_body; simpl; now rewrite H.
Qed.

Lemma legacy_guard_implies_xeon (m f : string) :
  is_legacy_xeon m f = true -> is_xeon m f = true.
Proof.
  unfold is_legacy_xeon, is_xeon; intros H.
  apply andb_true_iff in H as [-> _]; apply orb_true_r.
Qed.

End Classifier.

(** ** The labels the classifier can produce *)

Section Labels.

Lemma epyc_branch_labels (m : string) (year : Z) :
  In (or_unknown (epyc_branch m year)) reachable_labels.
Proof. unfold epyc_branch; break_ifs; in_labels. Qed.

Lemma xeon_series_labels (model_num first_digit year : Z) :
  In (or_unknown (xeon_series model_num first_digit year)) reachable_labels.
Proof. unfold xeon_series; break_ifs; in_labels. Qed.

Lemma xeon_fallback_labels (f : string) (year : Z) :
  In (or_unknown (xeon_fallback f year)) reachable_labels.
Proof. unfold xeon_fallback; break_ifs; in_labels. Qed.

Lemma xeon_model_step_labels (m : string) (year : Z) (r : option string) :
  xeon_model_step m year = Return r -> In (or_unknown r) reachable_labels.
Proof.
  unfold xeon_model_step.
  destruct (re_search_d4 m) as [g|]; [|intros [= <-]; in_labels].
  destruct (int_of_str g) as [v|e]; simpl; [|discriminate].
  intros [= <-]; apply xeon_series_labels.
Qed.

Lemma xeon_branch_labels (m f : string) (year : Z) (r : option string) :
  xeon_branch m f year = Return r -> In (or_unknown r) reachable_labels.
Proof.
  unfold xeon_branch.
  destruct (xeon_model_step m year) as [[l|]|e] eqn:E; simpl; try discriminate.
  - intros [= <-]; exact (xeon_model_step_labels _ _ _ E).
  - intros [= <-]; apply xeon_fallback_labels.
Qed.

Lemma vendor_dispatch_labels (m f : string) (year : Z) (r : option string) :
  vendor_dispatch m f year = Return r -> In (or_unknown r) reachable_labels.
Proof.
  unfold vendor_dispatch.
  destruct (is_epyc m f); [intros [= <-]; apply epyc_branch_labels|].
  destruct (is_xeon m f) eqn:Hx; [apply xeon_branch_labels|].
  destruct (is_legacy_xeon m f) eqn:Hl; [|intros [= <-]; in_labels].
  apply legacy_guard_implies_xeon in Hl; congruence.
Qed.

Lemma determine_labels (cpu_model : string) (launch_year : option Z)
      (family : option string) :
  exists label,
    determine_cpu_generation cpu_model launch_year family = Return label
    /\ In label reachable_labels.
Proof.
  unfold determine_cpu_generation.
  destruct (degenerate cpu_model launch_year); [exists ""; split; [auto|in_labels]|].
  destruct launch_year as [year|]; unfold try_body; simpl.
  - destruct (vendor_dispatch_returns (normalize cpu_model)
                (normalize (or_empty family)) year) as [r Hr].
    rewrite Hr; simpl; eexists; split; [reflexivity|].
    exact (vendor_dispatch_labels _ _ _ _ Hr).
  - exists ""; split; [reflexivity|in_labels].
Qed.

End Labels.

(** ** Years and branches *)

Section EarlyYears.

Lemma epyc_branch_before_2017 (m : string) (year : Z) :
  year < 2017 -> epyc_branch m year = None.
Proof. intros Hy; unfold epyc_branch; zbool; break_ifs; try reflexivity; lia. Qed.

Lemma xeon_series_before_2017 (model_num first_digit year : Z) :
  year < 2017 -> xeon_series model_num first_digit year = None.
Proof. intros Hy; unfold xeon_series; zbool. Qed.

Lemma xeon_fallback_before_2017 (f : string) (year : Z) :
  year < 2017 -> xeon_fallback f year = None.
Proof. intros Hy; unfold xeon_fallback; zbool; break_ifs; try reflexivity; lia. Qed.

Lemma vendor_dispatch_before_2017 (m f : string) (year : Z) (r : option string) :
  year < 2017 -> vendor_dispatch m f year = Return r -> or_unknown r = "".
Proof.
  intros Hy; unfold vendor_dispatch.
  destruct (is_epyc m f).
  { rewrite epyc_branch_before_2017 by assumption; now intros [= <-]. }
  destruct (is_xeon m f) eqn:Hx.
  - unfold xeon_branch, xeon_model_step.
    rewrite xeon_fallback_before_2017 by assumption.
    destruct (re_search_d4 m) as [g|]; [|now intros [= <-]].
    destruct (int_of_str g) as [v|e]; simpl; [|discriminate].
    rewrite xeon_series_before_2017 by assumption; now intros [= <-].
  - destruct (is_legacy_xeon m f) eqn:Hl; [|now intros [= <-]].
    apply legacy_guard_implies_xeon in Hl; congruence.
Qed.

End EarlyYears.

Section Branches.

Lemma determine_year_zero (cpu_model : string) (family : option string) :
  determine_cpu_generation cpu_model (Some 0) family = Return "".
Proof.
  unfold determine_cpu_generation.
  replace (degenerate cpu_model (Some 0)) with true; [reflexivity|].
  unfold degenerate; simpl; now rewrite orb_true_r.
Qed.

(** The model-number step works on the number found in the model as it
    was passed in. *)
Lemma xeon_model_step_number (cpu_model group1 : string) (v year : Z) :
  re_search_d4 cpu_model = Some group1 -> int_of_str group1 = Return v ->
  xeon_model_step (normalize cpu_model) year
  = Return (xeon_series v (v / 1000) year).
Proof.
  intros Hg Hv; unfold xeon_model_step.
  now rewrite re_search_d4_normalize, Hg, Hv.
Qed.



Lemma determine_epyc (cpu_model : string) (year : Z) (family : option string) :
  cpu_model <> "" -> year <> 0 ->
  is_epyc (normalize cpu_model) (normalize (or_empty family)) = true ->
  determine_cpu_generation cpu_model (Some year) family
  = Return (or_unknown (epyc_branch (normalize cpu_model) year)).
Proof.
  intros Hm Hy He; apply determine_by_dispatch; auto.
  unfold vendor_dispatch; now rewrite He.
Qed.

(** No rule names the year 0, so the guard on the year does not show in
    the result of a non-empty model. *)
Lemma determine_by_dispatch_any_year
      (cpu_model : string) (year : Z) (family : option string) (r : option string) :
  cpu_model <> "" ->
  vendor_dispatch (normalize cpu_model) (normalize (or_empty family)) year = Return r ->
  determine_cpu_generation cpu_model (Some year) family = Return (or_unknown r).
Proof.
  intros Hm Hr; destruct (Z.eq_dec year 0) as [->|Hy].
  - rewrite determine_year_zero.
    rewrite (vendor_dispatch_before_2017 _ _ 0 r) with (2 := Hr); [reflexivity|lia].
  - now apply determine_by_dispatch.
Qed.

End Branches.

(** ** The claims *)

(** C1. For the legacy example ["E5-2690 V3"], 2014, ["Intel Xeon"] the
    classifier returns the empty string, although its legacy table maps
    the same normalised model and year to "Haswell": the family contains
    "XEON", so the Xeon branch of line 58 takes the input, finds the
    number 2690 with leading digit 2 and no family keyword, and the
    legacy branch of line 120 is never tried. *)
Theorem legacy_example_not_haswell :
  determine_cpu_generation "E5-2690 V3" (Some 2014) (Some "Intel Xeon") = Return ""
  /\ is_xeon (normalize "E5-2690 V3") (normalize "Intel Xeon") = true
  /\ is_legacy_xeon (normalize "E5-2690 V3") (normalize "Intel Xeon") = true
  /\ legacy_branch (normalize "E5-2690 V3") 2014 = Some "Haswell".
Proof. repeat split. Qed.

(** C6. Empty-input closure: with an empty model the guard of line 22
    fires and the result is the empty string for every year and family;
    with an absent year it fires for every model and family. *)
Theorem empty_input_closure :
  (forall (launch_year : option Z) (family : option string),
      degenerate "" launch_year = true
      /\ determine_cpu_generation "" launch_year family = Return "")
  /\ (forall (cpu_model : string) (family : option string),
      degenerate cpu_model None = true
      /\ determine_cpu_generation cpu_model None family = Return "").
Proof.
  split; intros; unfold determine_cpu_generation.
  - split; reflexivity.
  - assert (H : degenerate cpu_model None = true)
      by (unfold degenerate; simpl; apply orb_true_r).
    now rewrite H.
Qed.

(** C9. The legacy branch is unreachable: its guard implies the guard of
    the Xeon branch before it, so for every input the classifier returns
    one of the empty string and the ten AMD and Xeon Scalable labels, and
    never "Ivy Bridge", "Haswell" or "Broadwell". *)
Theorem legacy_branch_unreachable
        (cpu_model : string) (launch_year : option Z) (family : option string) :
  (is_legacy_xeon (normalize cpu_model) (normalize (or_empty family)) = true
   -> is_xeon (normalize cpu_model) (normalize (or_empty family)) = true)
  /\ (exists label,
         determine_cpu_generation cpu_model launch_year family = Return label
         /\ In label [""; "Naples"; "Rome"; "Milan"; "Genoa"; "Siena"; "Skylake";
                      "Cascade Lake"; "Ice Lake"; "Sapphire Rapids";
                      "Emerald Rapids"])
  /\ determine_cpu_generation cpu_model launch_year family <> Return "Ivy Bridge"
  /\ determine_cpu_generation cpu_model launch_year family <> Return "Haswell"
  /\ determine_cpu_generation cpu_model launch_year family <> Return "Broadwell".
Proof.
  split; [apply legacy_guard_implies_xeon|].
  destruct (determine_labels cpu_model launch_year family) as [l [-> Hl]].
  split; [exists l; split; [reflexivity|exact Hl]|].
  unfold reachable_labels in Hl; simpl in Hl.
  repeat split; intros [= ->]; intuition discriminate.
Qed.

(** The guard implication of C9 at an input that satisfies the legacy
    guard. *)
Lemma legacy_branch_unreachable_witness :
  is_legacy_xeon (normalize "E3-1240 V2") (normalize (or_empty (Some "Xeon"))) = true
  /\ is_xeon (normalize "E3-1240 V2") (normalize (or_empty (Some "Xeon"))) = true.
Proof.
  split; [reflexivity|].
  apply (proj1 (legacy_branch_unreachable "E3-1240 V2" (Some 2013) (Some "Xeon")));
    reflexivity.
Defined.

(** C10. The year 0 is treated as an absent year: the guard of line 22
    rejects it for every model and family, the result being the empty
    string, and it rejects an integer year only when that year is 0 (or
    the model is empty); every other integer, negative ones included,
    passes the guard and the result is what the vendor chain yields. *)
Theorem year_zero_is_absent (cpu_model : string) (family : option string) :
  determine_cpu_generation cpu_model (Some 0) family = Return ""
  /\ degenerate cpu_model (Some 0) = true
  /\ (forall year : Z,
         degenerate cpu_model (Some year) = true <-> cpu_model = "" \/ year = 0)
  /\ (forall year : Z,
         cpu_model <> "" -> year <> 0 ->
         exists r,
           vendor_dispatch (normalize cpu_model) (normalize (or_empty family)) year
           = Return r
           /\ determine_cpu_generation cpu_model (Some year) family
              = Return (or_unknown r)).
Proof.
  assert (H0 : degenerate cpu_model (Some 0) = true)
    by (unfold degenerate; simpl; apply orb_true_r).
  repeat split.
  - unfold determine_cpu_generation; now rewrite H0.
  - exact H0.
  - unfold degenerate; destruct cpu_model; simpl; [auto|].
    intros H; right; apply negb_true_iff, negb_false_iff in H.
    now apply Z.eqb_eq.
  - intros [->| ->]; [reflexivity|exact H0].
  - intros year Hm Hy.
    destruct (vendor_dispatch_returns (normalize cpu_model)
                (normalize (or_empty family)) year) as [r Hr].
    exists r; split; [exact Hr|now apply determine_by_dispatch].
Qed.

(** C10 at a negative year: the guard lets it through. *)
Lemma year_zero_is_absent_witness :
  "EPYC 7301" <> "" /\ -2017 <> 0
  /\ exists r,
      vendor_dispatch (normalize "EPYC 7301") (normalize (or_empty (Some "AMD EPYC")))
        (-2017) = Return r
      /\ determine_cpu_generation "EPYC 7301" (Some (-2017)) (Some "AMD EPYC")
         = Return (or_unknown r).
Proof.
  split; [discriminate|]; split; [lia|].
  apply (proj2 (proj2 (proj2 (year_zero_is_absent "EPYC 7301" (Some "AMD EPYC")))));
    [discriminate|lia].
Defined.

(** C2. Vendor dispatch order: for every model, integer year and family
    the result is that of the EPYC branch whenever "EPYC" occurs in the
    normalised model or family; otherwise, for a non-empty model, that of
    the Xeon branch whenever "XEON" occurs in one of them; otherwise the
    legacy guard, third in the chain, is tested, and as it cannot hold
    there the result is the empty string.  One branch alone gives the
    result.  A model in which both "EPYC" and "XEON" occur, as written or
    after normalisation, gets the result of the EPYC branch. *)
Theorem vendor_dispatch_order
        (cpu_model : string) (year : Z) (family : option string) :
  let m := normalize cpu_model in
  let f := normalize (or_empty family) in
  let result := determine_cpu_generation cpu_model (Some year) family in
  (is_epyc m f = true -> result = Return (or_unknown (epyc_branch m year)))
  /\ (cpu_model <> "" -> is_epyc m f = false -> is_xeon m f = true ->
      exists r, xeon_branch m f year = Return r /\ result = Return (or_unknown r))
  /\ (is_epyc m f = false -> is_xeon m f = false ->
      is_legacy_xeon m f = false /\ result = Return "")
  /\ (str_in "EPYC" cpu_model = true -> str_in "XEON" cpu_model = true ->
      result = Return (or_unknown (epyc_branch m year)))
  /\ (str_in "EPYC" m = true -> str_in "XEON" m = true ->
      result = Return (or_unknown (epyc_branch m year))).
Proof.
  intros m f result; subst result.
  assert (Hempty : cpu_model = "" ->
                   determine_cpu_generation cpu_model (Some year) family = Return "")
    by (intros ->; reflexivity).
  assert (Hepyc : is_epyc m f = true ->
                  determine_cpu_generation cpu_model (Some year) family
                  = Return (or_unknown (epyc_branch m year))).
  { intros He; destruct (string_dec cpu_model "") as [E|Hm].
    - rewrite (Hempty E); subst m; now rewrite E.
    - apply determine_by_dispatch_any_year; auto.
      fold m; fold f; unfold vendor_dispatch; now rewrite He. }
  split; [exact Hepyc|]; split; [|split; [|split]].
  - intros Hm He Hx; destruct (xeon_branch_returns m f year) as [r Hr].
    exists r; split; [exact Hr|].
    apply determine_by_dispatch_any_year; auto.
    fold m; fold f; unfold vendor_dispatch; now rewrite He, Hx.
  - intros He Hx.
    assert (Hl : is_legacy_xeon m f = false).
    { destruct (is_legacy_xeon m f) eqn:Hl; [|reflexivity].
      apply legacy_guard_implies_xeon in Hl; congruence. }
    split; [exact Hl|].
    destruct (string_dec cpu_model "") as [E|Hm]; [now apply Hempty|].
    apply (determine_by_dispatch_any_year _ _ _ None); auto.
    fold m; fold f; unfold vendor_dispatch; now rewrite He, Hx, Hl.
  - intros He _; apply Hepyc; unfold is_epyc, m.
    rewrite str_in_normalize; auto; discriminate.
  - intros He _; apply Hepyc; unfold is_epyc; now rewrite He.
Qed.

(** C2 on a model that names both vendors, with a Xeon family. *)
Lemma vendor_dispatch_order_witness :
  str_in "EPYC" "XEON EPYC 7301" = true
  /\ str_in "XEON" "XEON EPYC 7301" = true
  /\ determine_cpu_generation "XEON EPYC 7301" (Some 2018) (Some "Intel Xeon Gold")
     = Return "".
Proof.
  split; [reflexivity|]; split; [reflexivity|].
  pose proof (vendor_dispatch_order "XEON EPYC 7301" 2018 (Some "Intel Xeon Gold"))
    as H.
  cbv zeta in H.
  exact (proj1 (proj2 (proj2 (proj2 H))) eq_refl eq_refl).
Defined.

(** Branches are not combined: the EPYC branch finds no year for 2018
    and the Xeon rules, which would answer "Skylake", are not consulted. *)
Example epyc_shadows_xeon :
  determine_cpu_generation "EPYC 7301" (Some 2018) (Some "Intel Xeon Gold") = Return ""
  /\ xeon_branch (normalize "EPYC 7301") (normalize "Intel Xeon Gold") 2018
     = Return (Some "Skylake").
Proof. split; reflexivity. Qed.




(** The pattern takes the first four digits of a longer run of digits. *)
Example longer_digit_run :
  re_search_d4 "Platinum 85921" = Some "8592"
  /\ re_search_d4 "12345 8180" = Some "1234".
Proof. split; reflexivity. Qed.

(** C4. AMD 7-series and its priority: in the EPYC branch every model
    whose normalised form contains "7" is classified by the 7-series
    table, also when a later series test would match: 2017 is "Naples",
    2019 and 2020 are "Rome", 2021 and 2022 are "Milan", any other year
    is the empty string.  "EPYC 7301" in 2017 is "Naples", "EPYC 7302" in
    2021 is "Milan", and "EPYC 9374F" in 2023 is not "Genoa". *)
Theorem epyc_7_series_priority :
  (forall (cpu_model : string) (year : Z) (family : option string),
      let m := normalize cpu_model in
      let f := normalize (or_empty family) in
      let result := determine_cpu_generation cpu_model (Some year) family in
      is_epyc m f = true -> str_in "7" m = true ->
      (year = 2017 -> result = Return "Naples")
      /\ (year = 2019 \/ year = 2020 -> result = Return "Rome")
      /\ (year = 2021 \/ year = 2022 -> result = Return "Milan")
      /\ (year <> 2017 -> year <> 2019 -> year <> 2020 -> year <> 2021 ->
          year <> 2022 -> result = Return ""))
  /\ determine_cpu_generation "EPYC 7301" (Some 2017) (Some "AMD EPYC") = Return "Naples"
  /\ determine_cpu_generation "EPYC 7302" (Some 2021) (Some "AMD EPYC") = Return "Milan"
  /\ determine_cpu_generation "EPYC 9374F" (Some 2023) (Some "AMD EPYC") = Return "".
Proof.
  split; [|repeat split].
  intros cpu_model year family m f result He H7; subst result.
  assert (Hm : cpu_model <> "") by (intros E; subst m; rewrite E in H7; discriminate).
  assert (Hgo : year <> 0 ->
            determine_cpu_generation cpu_model (Some year) family
            = Return (or_unknown
                        (if year =? 2017 then Some "Naples"
                         else if (year =? 2019) || (year =? 2020) then Some "Rome"
                         else if (year =? 2021) || (year =? 2022) then Some "Milan"
                         else None))).
  { intros Hy; rewrite determine_epyc by auto.
    fold m; unfold epyc_branch; now rewrite H7, orb_true_r. }
  repeat split.
  - intros ->; now rewrite Hgo.
  - intros [->| ->]; now rewrite Hgo.
  - intros [->| ->]; now rewrite Hgo.
  - intros; destruct (Z.eq_dec year 0) as [->|Hy]; [apply determine_year_zero|].
    rewrite Hgo by assumption; zbool.
Qed.

(** C4 on a model that also matches the 9-series test. *)
Lemma epyc_7_series_priority_witness :
  is_epyc (normalize "EPYC 9754") (normalize "AMD EPYC") = true
  /\ str_in "7" (normalize "EPYC 9754") = true
  /\ determine_cpu_generation "EPYC 9754" (Some 2022) (Some "AMD EPYC") = Return "Milan".
Proof.
  repeat (split; [reflexivity|]).
  pose proof (proj1 epyc_7_series_priority "EPYC 9754" 2022 (Some "AMD EPYC")
                eq_refl eq_refl) as H.
  exact (proj1 (proj2 (proj2 H)) (or_intror eq_refl)).
Defined.




(** ** Normal forms *)

Section NormalForms.

Local Ltac by_cases_on c :=
  destruct c as [b0 b1 b2 b3 b4 b5 b6 b7];
  destruct b0, b1, b2, b3, b4, b5, b6, b7; vm_compute; intuition congruence.

Lemma upper_char_space (c : ascii) : isspace (upper_char c) = isspace c.
Proof. by_cases_on c. Qed.

Lemma upper_char_idem (c : ascii) : upper_char (upper_char c) = upper_char c.
Proof. by_cases_on c. Qed.

Lemma upper_idem (s : string) : upper (upper s) = upper s.
Proof. induction s as [|c s IH]; simpl; [|rewrite upper_char_idem, IH]; reflexivity. Qed.

Lemma upper_empty_iff (s : string) : upper s = "" <-> s = "".
Proof. destruct s; simpl; split; congruence. Qed.

Lemma upper_lstrip (s : string) : upper (lstrip s) = lstrip (upper s).
Proof.
  induction s as [|c s IH]; [reflexivity|].
  simpl; rewrite upper_char_space; now destruct (isspace c).
Qed.

Lemma upper_rstrip (s : string) : upper (rstrip s) = rstrip (upper s).
Proof.
  induction s as [|c s IH]; [reflexivity|].
  simpl; rewrite <- IH, upper_char_space.
  destruct (rstrip s); simpl; now destruct (isspace c).
Qed.

Lemma upper_strip (s : string) : upper (strip s) = strip (upper s).
Proof. unfold strip; now rewrite upper_rstrip, upper_lstrip. Qed.

Lemma lstrip_head (s : string) :
  lstrip s = "" \/ exists c t, lstrip s = String c t /\ isspace c = false.
Proof.
  induction s as [|c s IH]; [now left|].
  simpl; destruct (isspace c) eqn:Hc; [exact IH|right; eauto].
Qed.

Lemma rstrip_idem (s : string) : rstrip (rstrip s) = rstrip s.
Proof.
  induction s as [|c s IH]; [reflexivity|].
  simpl; destruct (rstrip s) as [|d r] eqn:E.
  - destruct (isspace c) eqn:Hc; simpl; [reflexivity|now rewrite Hc].
  - change (rstrip (String c (String d r)) = String c (String d r)).
    rewrite rstrip_cons_nonempty; rewrite IH; congruence.
Qed.

Lemma strip_idem (s : string) : strip (strip s) = strip s.
Proof.
  unfold strip; destruct (lstrip_head s) as [->|(c & t & -> & Hc)]; [reflexivity|].
  rewrite rstrip_cons_nonblank by assumption.
  simpl lstrip; rewrite Hc.
  rewrite <- (rstrip_cons_nonblank c t Hc); apply rstrip_idem.
Qed.

Lemma normalize_upper (s : string) : normalize (upper s) = normalize s.
Proof. unfold normalize; now rewrite upper_idem. Qed.

Lemma normalize_strip (s : string) : normalize (strip s) = normalize s.
Proof. unfold normalize; now rewrite upper_strip, strip_idem. Qed.

Lemma normalize_idem (s : string) : normalize (normalize s) = normalize s.
Proof. unfold normalize at 2; now rewrite normalize_strip, normalize_upper. Qed.

Lemma or_empty_some (s : string) : or_empty (Some s) = s.
Proof. now destruct s. Qed.

(** The classifier sees its strings through their normal forms and the
    emptiness of the model. *)
Lemma determine_normal_forms
      (m1 m2 : string) (launch_year : option Z) (f1 f2 : option string) :
  truthy_str m1 = truthy_str m2 ->
  normalize m1 = normalize m2 ->
  normalize (or_empty f1) = normalize (or_empty f2) ->
  determine_cpu_generation m1 launch_year f1
  = determine_cpu_generation m2 launch_year f2.
Proof.
  intros Ht Hm Hf; unfold determine_cpu_generation, degenerate.
  now rewrite Ht, Hm, Hf.
Qed.

End NormalForms.

(** X1. The classifier ignores letter case and surrounding blanks: the
    upper-cased model, the stripped model (when something is left of
    it), the upper-cased family and the stripped family are classified
    like the strings they come from, and an empty family like an absent
    one. *)
Theorem classifier_ignores_case_and_blanks
        (cpu_model : string) (launch_year : option Z) (family : string) :
  determine_cpu_generation (upper cpu_model) launch_year (Some family)
  = determine_cpu_generation cpu_model launch_year (Some family)
  /\ (strip cpu_model <> "" ->
      determine_cpu_generation (strip cpu_model) launch_year (Some family)
      = determine_cpu_generation cpu_model launch_year (Some family))
  /\ determine_cpu_generation cpu_model launch_year (Some (upper family))
     = determine_cpu_generation cpu_model launch_year (Some family)
  /\ determine_cpu_generation cpu_model launch_year (Some (strip family))
     = determine_cpu_generation cpu_model launch_year (Some family)
  /\ determine_cpu_generation cpu_model launch_year (Some "")
     = determine_cpu_generation cpu_model launch_year None.
Proof.
  repeat split.
  - apply determine_normal_forms; [now destruct cpu_model|apply normalize_upper|reflexivity].
  - intros Hne; apply determine_normal_forms; [|apply normalize_strip|reflexivity].
    destruct (strip cpu_model) eqn:E; [congruence|].
    destruct cpu_model; [discriminate|reflexivity].
  - apply determine_normal_forms; [reflexivity|reflexivity|].
    now rewrite !or_empty_some, normalize_upper.
  - apply determine_normal_forms; [reflexivity|reflexivity|].
    now rewrite !or_empty_some, normalize_strip.
Qed.

(** X1 on a padded model. *)
Lemma classifier_ignores_case_and_blanks_witness :
  strip "  epyc 7301 " <> ""
  /\ determine_cpu_generation (strip "  epyc 7301 ") (Some 2017) (Some "amd")
     = determine_cpu_generation "  epyc 7301 " (Some 2017) (Some "amd").
Proof.
  split; [discriminate|].
  apply (proj1 (proj2 (classifier_ignores_case_and_blanks
                         "  epyc 7301 " (Some 2017) "amd"))); discriminate.
Defined.

(** ** Where a label comes from *)

Section Inversion.

Lemma determine_epyc_any_year
      (cpu_model : string) (year : Z) (family : option string) :
  is_epyc (normalize cpu_model) (normalize (or_empty family)) = true ->
  determine_cpu_generation cpu_model (Some year) family
  = Return (or_unknown (epyc_branch (normalize cpu_model) year)).
Proof.
  intros He; destruct (string_dec cpu_model "") as [->|Hm]; [reflexivity|].
  apply determine_by_dispatch_any_year; auto.
  unfold vendor_dispatch; now rewrite He.
Qed.

Lemma or_unknown_some (r : option string) (l : string) :
  or_unknown r = l -> l <> "" -> r = Some l.
Proof. destruct r; simpl; congruence. Qed.

(** A label other than the empty string was returned by one of three
    places: the EPYC table, the Xeon series table or the Xeon family
    fallback. *)
Lemma determine_inv
      (cpu_model : string) (year : Z) (family : option string) (l : string) :
  determine_cpu_generation cpu_model (Some year) family = Return l -> l <> "" ->
  let m := normalize cpu_model in
  let f := normalize (or_empty family) in
  (is_epyc m f = true /\ epyc_branch m year = Some l)
  \/ (is_epyc m f = false /\ is_xeon m f = true
      /\ ((exists g v, re_search_d4 m = Some g /\ int_of_str g = Return v
                       /\ xeon_series v (v / 1000) year = Some l)
          \/ xeon_fallback f year = Some l)).
Proof.
  intros H Hl m f.
  assert (Hm : cpu_model <> "")
    by (intros ->; change (Return "" = Return l) in H; congruence).
  destruct (vendor_dispatch_returns m f year) as [r Hr].
  rewrite (determine_by_dispatch_any_year _ _ _ r Hm Hr) in H.
  injection H as H; apply or_unknown_some in H; [subst r|exact Hl].
  unfold vendor_dispatch in Hr.
  destruct (is_epyc m f); [left; split; congruence|right].
  destruct (is_xeon m f) eqn:Hx.
  - split; [reflexivity|]; split; [reflexivity|].
    unfold xeon_branch, xeon_model_step in Hr.
    destruct (re_search_d4 m) as [g|] eqn:Hg; [|right; simpl in Hr; congruence].
    destruct (int_of_str g) as [v|e] eqn:Hv; simpl in Hr; [|discriminate].
    destruct (xeon_series v (v / 1000) year) as [l'|] eqn:Hs.
    + left; exists g, v; repeat split; congruence.
    + right; congruence.
  - destruct (is_legacy_xeon m f) eqn:Hleg; [|discriminate].
    apply legacy_guard_implies_xeon in Hleg; congruence.
Qed.

Ltac close_window :=
  intros [= <-]; unfold label_years; repeat split; intros E;
  try discriminate E; lia.

Lemma epyc_branch_years (m : string) (year : Z) (l : string) :
  epyc_branch m year = Some l -> label_years l year.
Proof.
  unfold epyc_branch; walk_ifs; to_arith; try discriminate; close_window.
Qed.

Lemma xeon_series_years (v first_digit year : Z) (l : string) :
  xeon_series v first_digit year = Some l -> label_years l year.
Proof.
  unfold xeon_series; walk_ifs; to_arith; try discriminate;
    try (destruct (Z.eqb_spec year 2023)); close_window.
Qed.

Lemma xeon_fallback_years (f : string) (year : Z) (l : string) :
  xeon_fallback f year = Some l -> label_years l year.
Proof.
  unfold xeon_fallback; walk_ifs; to_arith; try discriminate; close_window.
Qed.

Lemma epyc_branch_amd (m : string) (year : Z) (l : string) :
  epyc_branch m year = Some l ->
  In l ["Naples"; "Rome"; "Milan"; "Genoa"; "Siena"].
Proof.
  unfold epyc_branch; walk_ifs; try discriminate; intros [= <-]; simpl; tauto.
Qed.

Lemma xeon_series_intel (v first_digit year : Z) (l : string) :
  xeon_series v first_digit year = Some l ->
  In l ["Skylake"; "Cascade Lake"; "Ice Lake"; "Sapphire Rapids"; "Emerald Rapids"].
Proof.
  unfold xeon_series; walk_ifs; try discriminate; intros [= <-];
    try destruct (year =? 2023); simpl; tauto.
Qed.

Lemma xeon_fallback_intel (f : string) (year : Z) (l : string) :
  xeon_fallback f year = Some l ->
  In l ["Skylake"; "Cascade Lake"; "Ice Lake"; "Sapphire Rapids"; "Emerald Rapids"].
Proof.
  unfold xeon_fallback; walk_ifs; try discriminate; intros [= <-]; simpl; tauto.
Qed.

End Inversion.

(** X2. Every label is tied to launch years: "Naples" is returned for
    2017 only, "Rome" for 2019 and 2020, "Milan" for 2021 and 2022,
    "Genoa" for 2022 and 2023, "Siena" from 2023 on, "Skylake" for 2017
    and 2018, "Cascade Lake" for 2019 and 2020, "Ice Lake" for 2021,
    "Sapphire Rapids" and "Emerald Rapids" for 2023 and 2024. *)
Theorem label_fixes_launch_years
        (cpu_model : string) (year : Z) (family : option string) (label : string) :
  determine_cpu_generation cpu_model (Some year) family = Return label ->
  (label = "Naples" -> year = 2017)
  /\ (label = "Rome" -> year = 2019 \/ year = 2020)
  /\ (label = "Milan" -> year = 2021 \/ year = 2022)
  /\ (label = "Genoa" -> year = 2022 \/ year = 2023)
  /\ (label = "Siena" -> 2023 <= year)
  /\ (label = "Skylake" -> year = 2017 \/ year = 2018)
  /\ (label = "Cascade Lake" -> year = 2019 \/ year = 2020)
  /\ (label = "Ice Lake" -> year = 2021)
  /\ (label = "Sapphire Rapids" -> year = 2023 \/ year = 2024)
  /\ (label = "Emerald Rapids" -> year = 2023 \/ year = 2024).
Proof.
  intros H; change (label_years label year).
  destruct (string_dec label "") as [->|Hl].
  { unfold label_years; repeat split; intros E; discriminate E. }
  destruct (determine_inv _ _ _ _ H Hl) as [[_ He]|(_ & _ & [(g & v & _ & _ & Hs)|Hf])].
  - exact (epyc_branch_years _ _ _ He).
  - exact (xeon_series_years _ _ _ _ Hs).
  - exact (xeon_fallback_years _ _ _ Hf).
Qed.

(** X2 on a Siena part of 2025. *)
Lemma label_fixes_launch_years_witness :
  determine_cpu_generation "EPYC 8124P" (Some 2025) (Some "AMD EPYC") = Return "Siena"
  /\ 2023 <= 2025.
Proof.
  split; [reflexivity|].
  apply (label_fixes_launch_years "EPYC 8124P" 2025 (Some "AMD EPYC") "Siena");
    reflexivity.
Defined.

(** X3. Labels follow the vendor marker: an AMD label is returned only
    when "EPYC" occurs in the normalised model or family, and an Intel
    label only when "XEON" occurs in one of them and "EPYC" in neither. *)
Theorem labels_follow_vendor
        (cpu_model : string) (launch_year : option Z) (family : option string)
        (label : string) :
  determine_cpu_generation cpu_model launch_year family = Return label ->
  let m := normalize cpu_model in
  let f := normalize (or_empty family) in
  (In label ["Naples"; "Rome"; "Milan"; "Genoa"; "Siena"] -> is_epyc m f = true)
  /\ (In label ["Skylake"; "Cascade Lake"; "Ice Lake"; "Sapphire Rapids";
                "Emerald Rapids"] ->
      is_epyc m f = false /\ is_xeon m f = true).
Proof.
  intros H m f.
  destruct (string_dec label "") as [->|Hl].
  { split; simpl; intros E; repeat destruct E as [E|E]; discriminate || contradiction. }
  destruct launch_year as [year|].
  2:{ unfold determine_cpu_generation, degenerate in H; simpl in H.
      rewrite orb_true_r in H; congruence. }
  destruct (determine_inv _ _ _ _ H Hl) as [[He Hb]|(He & Hx & Hs)].
  - split; [auto|]; intros Hi.
    apply epyc_branch_amd in Hb; simpl in Hb, Hi.
    repeat destruct Hb as [Hb|Hb]; try contradiction; subst label;
      repeat destruct Hi as [Hi|Hi]; discriminate || contradiction.
  - split; [|auto]; intros Hi.
    assert (Hb : In label ["Skylake"; "Cascade Lake"; "Ice Lake"; "Sapphire Rapids";
                           "Emerald Rapids"]).
    { destruct Hs as [(g & v & _ & _ & Hs)|Hs];
        [exact (xeon_series_intel _ _ _ _ Hs)|exact (xeon_fallback_intel _ _ _ Hs)]. }
    simpl in Hb, Hi.
    repeat destruct Hb as [Hb|Hb]; try contradiction; subst label;
      repeat destruct Hi as [Hi|Hi]; discriminate || contradiction.
Qed.

(** X3 on a Xeon Gold part. *)
Lemma labels_follow_vendor_witness :
  determine_cpu_generation "Gold 6240" (Some 2019) (Some "Intel Xeon Gold")
  = Return "Cascade Lake"
  /\ is_epyc (normalize "Gold 6240") (normalize "Intel Xeon Gold") = false
  /\ is_xeon (normalize "Gold 6240") (normalize "Intel Xeon Gold") = true.
Proof.
  split; [reflexivity|].
  pose proof (labels_follow_vendor "Gold 6240" (Some 2019) (Some "Intel Xeon Gold")
                "Cascade Lake" eq_refl) as H.
  cbv zeta in H; apply (proj2 H); simpl; tauto.
Defined.

(** ** Substrings of the markers *)

Section Markers.

Lemma startswith_str_in (q s : string) : startswith s q = true -> str_in q s = true.
Proof. destruct s; simpl; [auto|intros ->; reflexivity]. Qed.

Lemma startswith_app_r (p q s : string) :
  startswith s (p ++ q) = true -> str_in q s = true.
Proof.
  revert s; induction p as [|a p IH]; intros s H.
  - now apply startswith_str_in.
  - destruct s as [|b s]; simpl in H; [discriminate|].
    apply andb_true_iff in H as [_ H].
    cbn [str_in]; rewrite (IH _ H); apply orb_true_r.
Qed.

Lemma startswith_app_l (p q s : string) :
  startswith s (p ++ q) = true -> startswith s p = true.
Proof.
  revert s; induction p as [|a p IH]; intros s H; [now destruct s|].
  destruct s as [|b s]; simpl in H; [discriminate|].
  apply andb_true_iff in H as [Hab H]; simpl; rewrite Hab; simpl; eauto.
Qed.

(** Whenever [p ++ q] occurs in [s], so do [p] and [q]. *)
Lemma str_in_app (p q s : string) :
  str_in (p ++ q) s = true -> str_in p s = true /\ str_in q s = true.
Proof.
  induction s as [|c s IH].
  - simpl; destruct p, q; simpl; try discriminate; auto.
  - cbn [str_in]; intros H; apply orb_true_iff in H as [H|H].
    + split; [now rewrite (startswith_app_l _ _ _ H)|].
      exact (startswith_app_r _ _ _ H).
    + destruct (IH H) as [-> ->]; split; apply orb_true_r.
Qed.

Lemma no_7_no_epyc_7 (m : string) : str_in "7" m = false -> str_in "EPYC 7" m = false.
Proof.
  intros H; destruct (str_in "EPYC 7" m) eqn:E; [|reflexivity].
  apply (str_in_app "EPYC " "7") in E as [_ E]; congruence.
Qed.

Lemma no_9_no_epyc_9 (m : string) : str_in "9" m = false -> str_in "EPYC 9" m = false.
Proof.
  intros H; destruct (str_in "EPYC 9" m) eqn:E; [|reflexivity].
  apply (str_in_app "EPYC " "9") in E as [_ E]; congruence.
Qed.

Lemma no_epyc_no_series (d m : string) :
  str_in "EPYC" m = false -> str_in ("EPYC" ++ d) m = false.
Proof.
  intros H; destruct (str_in ("EPYC" ++ d) m) eqn:E; [|reflexivity].
  apply str_in_app in E as [E _]; congruence.
Qed.

End Markers.

(** X4. AMD 9-series: in the EPYC branch a model whose normalised form
    contains no "7" but contains "9" and "EPYC" is "Genoa" for the years
    2022 and 2023 and the empty string for any other year. *)
Theorem epyc_9_series
        (cpu_model : string) (year : Z) (family : option string) :
  let m := normalize cpu_model in
  let result := determine_cpu_generation cpu_model (Some year) family in
  str_in "7" m = false -> str_in "9" m = true -> str_in "EPYC" m = true ->
  (year = 2022 \/ year = 2023 -> result = Return "Genoa")
  /\ (year <> 2022 -> year <> 2023 -> result = Return "").
Proof.
  intros m result H7 H9 He; subst result.
  rewrite determine_epyc_any_year by (unfold is_epyc; fold m; now rewrite He).
  fold m; unfold epyc_branch.
  rewrite H7, (no_7_no_epyc_7 _ H7), H9, He, orb_true_r; simpl.
  split; [intros [->| ->]; reflexivity|intros; zbool].
Qed.

(** X4 on "EPYC 9354" in 2022. *)
Lemma epyc_9_series_witness :
  str_in "7" (normalize "EPYC 9354") = false
  /\ str_in "9" (normalize "EPYC 9354") = true
  /\ str_in "EPYC" (normalize "EPYC 9354") = true
  /\ determine_cpu_generation "EPYC 9354" (Some 2022) None = Return "Genoa".
Proof.
  repeat (split; [reflexivity|]).
  pose proof (epyc_9_series "EPYC 9354" 2022 None eq_refl eq_refl eq_refl) as H.
  exact (proj1 H (or_introl eq_refl)).
Defined.

(** X5. AMD 8-series: in the EPYC branch a model whose normalised form
    contains neither "7" nor "9" but contains "EPYC 8" is "Siena" for
    every year from 2023 on, with no upper bound, and the empty string
    before. *)
Theorem epyc_8_series
        (cpu_model : string) (year : Z) (family : option string) :
  let m := normalize cpu_model in
  let result := determine_cpu_generation cpu_model (Some year) family in
  str_in "7" m = false -> str_in "9" m = false -> str_in "EPYC 8" m = true ->
  (2023 <= year -> result = Return "Siena")
  /\ (year < 2023 -> result = Return "").
Proof.
  intros m result H7 H9 H8; subst result.
  assert (He : str_in "EPYC" m = true) by (now apply (str_in_app "EPYC" " 8") in H8).
  rewrite determine_epyc_any_year by (unfold is_epyc; fold m; now rewrite He).
  fold m; unfold epyc_branch.
  rewrite H7, (no_7_no_epyc_7 _ H7), H9, (no_9_no_epyc_9 _ H9), H8; simpl.
  split; intros; zbool.
Qed.

(** X5 on "EPYC 8124P" in 2030. *)
Lemma epyc_8_series_witness :
  str_in "7" (normalize "EPYC 8124P") = false
  /\ str_in "9" (normalize "EPYC 8124P") = false
  /\ str_in "EPYC 8" (normalize "EPYC 8124P") = true
  /\ 2023 <= 2030
  /\ determine_cpu_generation "EPYC 8124P" (Some 2030) None = Return "Siena".
Proof.
  repeat (split; [reflexivity || lia|]).
  pose proof (epyc_8_series "EPYC 8124P" 2030 None eq_refl eq_refl eq_refl) as H.
  apply (proj1 H); lia.
Defined.

(** X6. AMD 4-series: in the EPYC branch a model whose normalised form
    contains neither "7" nor "9" nor "EPYC 8" but contains "EPYC 4" is
    "Genoa" for the year 2023 and the empty string for any other year. *)
Theorem epyc_4_series
        (cpu_model : string) (year : Z) (family : option string) :
  let m := normalize cpu_model in
  let result := determine_cpu_generation cpu_model (Some year) family in
  str_in "7" m = false -> str_in "9" m = false -> str_in "EPYC 8" m = false ->
  str_in "EPYC 4" m = true ->
  (year = 2023 -> result = Return "Genoa")
  /\ (year <> 2023 -> result = Return "").
Proof.
  intros m result H7 H9 H8 H4; subst result.
  assert (He : str_in "EPYC" m = true) by (now apply (str_in_app "EPYC" " 4") in H4).
  rewrite determine_epyc_any_year by (unfold is_epyc; fold m; now rewrite He).
  fold m; unfold epyc_branch.
  rewrite H7, (no_7_no_epyc_7 _ H7), H9, (no_9_no_epyc_9 _ H9), H8, H4; simpl.
  split; [intros ->; reflexivity|intros; zbool].
Qed.

(** X6 on "EPYC 4364P" in 2023. *)
Lemma epyc_4_series_witness :
  str_in "7" (normalize "EPYC 4364P") = false
  /\ str_in "9" (normalize "EPYC 4364P") = false
  /\ str_in "EPYC 8" (normalize "EPYC 4364P") = false
  /\ str_in "EPYC 4" (normalize "EPYC 4364P") = true
  /\ determine_cpu_generation "EPYC 4364P" (Some 2023) None = Return "Genoa".
Proof.
  repeat (split; [reflexivity|]).
  pose proof (epyc_4_series "EPYC 4364P" 2023 None eq_refl eq_refl eq_refl eq_refl)
    as H.
  exact (proj1 H eq_refl).
Defined.

(** X7. When "EPYC" occurs in the family only, the 7-series is the one
    series that is recognised: a model whose normalised form contains
    neither "EPYC" nor "7" gets the empty string for every year and
    family, whatever other digits it holds. *)
Theorem epyc_in_family_only
        (cpu_model : string) (year : Z) (family : option string) :
  let m := normalize cpu_model in
  let f := normalize (or_empty family) in
  str_in "EPYC" f = true -> str_in "EPYC" m = false -> str_in "7" m = false ->
  determine_cpu_generation cpu_model (Some year) family = Return "".
Proof.
  intros m f Hf He H7.
  rewrite determine_epyc_any_year
    by (unfold is_epyc; fold m; fold f; rewrite Hf; apply orb_true_r).
  fold m; unfold epyc_branch.
  rewrite H7, (no_7_no_epyc_7 _ H7), He, andb_false_r.
  pose proof (no_epyc_no_series " 9" _ He) as E9.
  pose proof (no_epyc_no_series " 8" _ He) as E8.
  pose proof (no_epyc_no_series " 4" _ He) as E4.
  cbn [append] in E9, E8, E4; now rewrite E9, E8, E4.
Qed.

(** X7 on the bare model number "9354" with the family "AMD EPYC". *)
Lemma epyc_in_family_only_witness :
  str_in "EPYC" (normalize (or_empty (Some "AMD EPYC"))) = true
  /\ str_in "EPYC" (normalize "9354") = false
  /\ str_in "7" (normalize "9354") = false
  /\ determine_cpu_generation "9354" (Some 2023) (Some "AMD EPYC") = Return "".
Proof.
  repeat (split; [reflexivity|]).
  exact (epyc_in_family_only "9354" 2023 (Some "AMD EPYC") eq_refl eq_refl eq_refl).
Defined.

(** ** The Xeon branch beyond the 8-series *)

Section XeonNumber.

(** The result of the Xeon branch for a model in which four digits were
    found. *)
Lemma determine_xeon_number
      (cpu_model : string) (year : Z) (family : option string) (g : string) (v : Z) :
  is_epyc (normalize cpu_model) (normalize (or_empty family)) = false ->
  is_xeon (normalize cpu_model) (normalize (or_empty family)) = true ->
  re_search_d4 cpu_model = Some g -> int_of_str g = Return v ->
  determine_cpu_generation cpu_model (Some year) family
  = Return (or_unknown
              (match xeon_series v (v / 1000) year with
               | Some label => Some label
               | None => xeon_fallback (normalize (or_empty family)) year
               end)).
Proof.
  intros He Hx Hg Hv.
  assert (Hm : cpu_model <> "") by (intros ->; discriminate).
  apply determine_by_dispatch_any_year; [exact Hm|].
  unfold vendor_dispatch, xeon_branch.
  rewrite He, Hx, (xeon_model_step_number _ _ _ _ Hg Hv); simpl.
  now destruct (xeon_series v (v / 1000) year).
Qed.

(** The result of the Xeon branch for a model without four digits in a
    row. *)
Lemma determine_xeon_no_number
      (cpu_model : string) (year : Z) (family : option string) :
  cpu_model <> "" ->
  is_epyc (normalize cpu_model) (normalize (or_empty family)) = false ->
  is_xeon (normalize cpu_model) (normalize (or_empty family)) = true ->
  re_search_d4 cpu_model = None ->
  determine_cpu_generation cpu_model (Some year) family
  = Return (or_unknown (xeon_fallback (normalize (or_empty family)) year)).
Proof.
  intros Hm He Hx Hg.
  apply determine_by_dispatch_any_year; [exact Hm|].
  unfold vendor_dispatch, xeon_branch, xeon_model_step.
  now rewrite He, Hx, re_search_d4_normalize, Hg.
Qed.

Lemma xeon_fallback_no_keyword (f : string) (year : Z) :
  scalable_family f = false -> xeon_fallback f year = None.
Proof. unfold scalable_family, xeon_fallback; now intros ->. Qed.

End XeonNumber.

(** X8. Intel 6-, 5- and 4-series: for a model of ASCII characters, in
    the Xeon branch, when the first
    four consecutive digits of the model form a number with leading
    digit 6, the years 2019 and 2020 give "Cascade Lake"; with leading
    digit 5 or 4, the year 2021 gives "Ice Lake"; the family plays no
    part in these cases. *)
Theorem xeon_series_6_5_4
        (cpu_model : string) (year : Z) (family : option string)
        (group1 : string) (v : Z) :
  let m := normalize cpu_model in
  let f := normalize (or_empty family) in
  let result := determine_cpu_generation cpu_model (Some year) family in
  is_ascii cpu_model = true ->
  is_epyc m f = false -> is_xeon m f = true ->
  re_search_d4 cpu_model = Some group1 -> int_of_str group1 = Return v ->
  (v / 1000 = 6 -> year = 2019 \/ year = 2020 -> result = Return "Cascade Lake")
  /\ (v / 1000 = 5 \/ v / 1000 = 4 -> year = 2021 -> result = Return "Ice Lake").
Proof.
  intros m f result _ He Hx Hg Hv; subst result.
  rewrite (determine_xeon_number _ _ _ _ _ He Hx Hg Hv).
  split.
  - intros -> [->| ->]; reflexivity.
  - intros [->| ->] ->; reflexivity.
Qed.

(** X8 on "Silver 4310" in 2021, with a family that carries no keyword. *)
Lemma xeon_series_6_5_4_witness :
  is_ascii "Silver 4310" = true
  /\ is_epyc (normalize "Silver 4310") (normalize "Intel Xeon") = false
  /\ is_xeon (normalize "Silver 4310") (normalize "Intel Xeon") = true
  /\ re_search_d4 "Silver 4310" = Some "4310"
  /\ int_of_str "4310" = Return 4310
  /\ determine_cpu_generation "Silver 4310" (Some 2021) (Some "Intel Xeon")
     = Return "Ice Lake".
Proof.
  repeat (split; [reflexivity|]).
  pose proof (xeon_series_6_5_4 "Silver 4310" 2021 (Some "Intel Xeon") "4310" 4310
                eq_refl eq_refl eq_refl eq_refl eq_refl) as H.
  exact (proj2 H (or_intror eq_refl) eq_refl).
Defined.

(** X9. With a Scalable keyword in the family the model number matters
    in two cases only: for a model and a family of ASCII characters, in
    the Xeon branch, the result is the one the
    family fallback gives for the year, except for an 8-series number
    from 8600 on in 2023 ("Emerald Rapids" where the fallback says
    "Sapphire Rapids") and an 8-series number below 8500 in 2024
    ("Sapphire Rapids" where the fallback says "Emerald Rapids"). *)
Theorem xeon_number_matters_twice
        (cpu_model : string) (year : Z) (family : option string)
        (group1 : string) (v : Z) :
  let m := normalize cpu_model in
  let f := normalize (or_empty family) in
  let result := determine_cpu_generation cpu_model (Some year) family in
  is_ascii cpu_model = true -> is_ascii (or_empty family) = true ->
  is_epyc m f = false -> is_xeon m f = true -> scalable_family f = true ->
  re_search_d4 cpu_model = Some group1 -> int_of_str group1 = Return v ->
  (~ (v / 1000 = 8 /\ ((year = 2023 /\ 8600 <= v) \/ (year = 2024 /\ v < 8500))) ->
   result = Return (or_unknown (xeon_fallback f year)))
  /\ (v / 1000 = 8 -> year = 2023 -> 8600 <= v ->
      result = Return "Emerald Rapids"
      /\ xeon_fallback f year = Some "Sapphire Rapids")
  /\ (v / 1000 = 8 -> year = 2024 -> v < 8500 ->
      result = Return "Sapphire Rapids"
      /\ xeon_fallback f year = Some "Emerald Rapids").
Proof.
  intros m f result _ _ He Hx Hk Hg Hv; subst result.
  rewrite (determine_xeon_number _ _ _ _ _ He Hx Hg Hv); fold f.
  unfold scalable_family in Hk; unfold xeon_fallback; rewrite Hk.
  unfold xeon_series; generalize (v / 1000); intros d.
  split; [|split].
  - intros Hn; zcases; reflexivity.
  - intros -> -> Hv'; zcases; split; reflexivity.
  - intros -> -> Hv'; zcases; split; reflexivity.
Qed.

(** X9 on "Gold 5218" in 2019: the series table has no entry for a
    5-series part of that year and the fallback answers. *)
Lemma xeon_number_matters_twice_witness :
  is_ascii "Gold 5218" = true /\ is_ascii (or_empty (Some "Intel Xeon Gold")) = true
  /\ is_epyc (normalize "Gold 5218") (normalize "Intel Xeon Gold") = false
  /\ is_xeon (normalize "Gold 5218") (normalize "Intel Xeon Gold") = true
  /\ scalable_family (normalize "Intel Xeon Gold") = true
  /\ re_search_d4 "Gold 5218" = Some "5218"
  /\ int_of_str "5218" = Return 5218
  /\ determine_cpu_generation "Gold 5218" (Some 2019) (Some "Intel Xeon Gold")
     = Return "Cascade Lake".
Proof.
  repeat (split; [reflexivity|]).
  pose proof (xeon_number_matters_twice "Gold 5218" 2019 (Some "Intel Xeon Gold")
                "5218" 5218 eq_refl eq_refl eq_refl eq_refl eq_refl eq_refl eq_refl)
    as H.
  apply (proj1 H); intros [E _]; vm_compute in E; discriminate E.
Defined.

(** X10. Without a Scalable keyword in the family the Xeon branch needs
    the model number: for a model and a family of ASCII characters, a
    non-empty model without four digits in a row,
    and a model whose number has a leading digit other than 8, 6, 5 and
    4, get the empty string for every year. *)
Theorem xeon_without_family_keyword
        (cpu_model : string) (year : Z) (family : option string) :
  let m := normalize cpu_model in
  let f := normalize (or_empty family) in
  let result := determine_cpu_generation cpu_model (Some year) family in
  is_ascii cpu_model = true -> is_ascii (or_empty family) = true ->
  is_epyc m f = false -> is_xeon m f = true -> scalable_family f = false ->
  (re_search_d4 cpu_model = None -> result = Return "")
  /\ (forall (group1 : string) (v : Z),
         re_search_d4 cpu_model = Some group1 -> int_of_str group1 = Return v ->
         v / 1000 <> 8 -> v / 1000 <> 6 -> v / 1000 <> 5 -> v / 1000 <> 4 ->
         result = Return "").
Proof.
  intros m f result _ _ He Hx Hk; subst result; split.
  - intros Hg; destruct (string_dec cpu_model "") as [->|Hm]; [reflexivity|].
    rewrite (determine_xeon_no_number _ _ _ Hm He Hx Hg); fold f.
    now rewrite xeon_fallback_no_keyword.
  - intros g v Hg Hv H8 H6 H5 H4.
    rewrite (determine_xeon_number _ _ _ _ _ He Hx Hg Hv); fold f.
    rewrite xeon_fallback_no_keyword by assumption.
    unfold xeon_series; zcases; reflexivity.
Qed.

(** X10 on the legacy part "E5-2690 V3" with the family "Intel Xeon". *)
Lemma xeon_without_family_keyword_witness :
  is_ascii "E5-2690 V3" = true /\ is_ascii (or_empty (Some "Intel Xeon")) = true
  /\ is_epyc (normalize "E5-2690 V3") (normalize "Intel Xeon") = false
  /\ is_xeon (normalize "E5-2690 V3") (normalize "Intel Xeon") = true
  /\ scalable_family (normalize "Intel Xeon") = false
  /\ re_search_d4 "E5-2690 V3" = Some "2690"
  /\ int_of_str "2690" = Return 2690
  /\ determine_cpu_generation "E5-2690 V3" (Some 2014) (Some "Intel Xeon") = Return "".
Proof.
  repeat (split; [reflexivity|]).
  pose proof (xeon_without_family_keyword "E5-2690 V3" 2014 (Some "Intel Xeon")
                eq_refl eq_refl eq_refl eq_refl eq_refl) as H.
  apply (proj2 H "2690" 2690); try reflexivity; vm_compute; discriminate.
Defined.

(** X11. A model of blanks only is not an empty model: it passes the
    guard of line 22, which looks at the string before it is stripped,
    and with "XEON" but not "EPYC" in a family of ASCII characters it is
    classified by the family fallback on the year alone. *)
Theorem blank_model_passes_guard
        (cpu_model : string) (year : Z) (family : option string) :
  let f := normalize (or_empty family) in
  cpu_model <> "" -> normalize cpu_model = "" ->
  is_ascii (or_empty family) = true ->
  str_in "EPYC" f = false -> str_in "XEON" f = true ->
  determine_cpu_generation cpu_model (Some year) family
  = Return (or_unknown (xeon_fallback f year)).
Proof.
  intros f Hm Hn _ He Hx.
  apply determine_by_dispatch_any_year; [exact Hm|].
  fold f; rewrite Hn; unfold vendor_dispatch, is_epyc, is_xeon.
  now rewrite He, Hx.
Qed.

(** X11 on a model of three spaces. *)
Lemma blank_model_passes_guard_witness :
  "   " <> "" /\ normalize "   " = ""
  /\ determine_cpu_generation "   " (Some 2017) (Some "Intel Xeon Gold")
     = Return "Skylake"
  /\ determine_cpu_generation "" (Some 2017) (Some "Intel Xeon Gold") = Return "".
Proof.
  split; [discriminate|]; split; [reflexivity|]; split; [|reflexivity].
  assert (Hm : "   " <> "") by discriminate.
  exact (blank_model_passes_guard "   " 2017 (Some "Intel Xeon Gold")
           Hm eq_refl eq_refl eq_refl eq_refl).
Defined.

Lemma truthy_str_nonempty (s : string) : truthy_str s = true <-> s <> "".
Proof. destruct s; simpl; split; congruence. Qed.

(** ** Tokens *)

Section TokenFacts.

Variable jwt_decodes : string -> bool.
Variable DEFAULT_ADMIN_TOKEN : string.

Local Abbreviation verify := (Auth.verify_token jwt_decodes DEFAULT_ADMIN_TOKEN).

Lemma mem_add (token other : string) (tokens : list string) :
  Auth.mem other (Auth.add_admin_token token tokens)
  = String.eqb other token || Auth.mem other tokens.
Proof.
  unfold Auth.add_admin_token.
  destruct (Auth.mem token tokens) eqn:E; [|reflexivity].
  destruct (String.eqb_spec other token) as [->|]; [now rewrite E|reflexivity].
Qed.

Lemma mem_remove (token other : string) (tokens : list string) :
  Auth.mem other (Auth.remove_admin_token token tokens)
  = negb (String.eqb other token) && Auth.mem other tokens.
Proof.
  unfold Auth.mem, Auth.remove_admin_token.
  induction tokens as [|t tokens IH]; simpl; [now rewrite andb_false_r|].
  destruct (String.eqb_spec t token) as [->|Ht]; simpl.
  - rewrite IH; destruct (String.eqb_spec other token); simpl; auto.
  - rewrite IH; destruct (String.eqb_spec other t) as [->|]; simpl; auto.
    apply String.eqb_neq in Ht; now rewrite Ht.
Qed.

(** X19. A token that was added is accepted, and adding it changes the
    verdict on no other token: nothing gets revoked by an addition. *)
Theorem added_token_is_accepted (token : string) (tokens : list string) :
  verify (Auth.add_admin_token token tokens) token = Auth.Ok token
  /\ forall other : string,
      other <> token ->
      verify (Auth.add_admin_token token tokens) other = verify tokens other.
Proof.
  unfold Auth.verify_token; split.
  - rewrite mem_add, String.eqb_refl, orb_true_r.
    now destruct (jwt_decodes token).
  - intros other Hne; rewrite mem_add.
    apply String.eqb_neq in Hne; now rewrite Hne.
Qed.

(** X20. Removing a token revokes that entry and nothing else: after
    the removal the token is rejected with status 401 unless it is the
    default admin token or a token [jwt.decode] accepts, which stay
    valid; the verdict on every other token is unchanged. *)
Theorem removed_token_is_rejected (token : string) (tokens : list string) :
  (jwt_decodes token = false -> token <> DEFAULT_ADMIN_TOKEN ->
   verify (Auth.remove_admin_token token tokens) token
   = Auth.HTTPException 401 "Invalid authentication token")
  /\ (jwt_decodes token = true \/ token = DEFAULT_ADMIN_TOKEN ->
      verify (Auth.remove_admin_token token tokens) token = Auth.Ok token)
  /\ forall other : string,
      other <> token ->
      verify (Auth.remove_admin_token token tokens) other = verify tokens other.
Proof.
  unfold Auth.verify_token; repeat split.
  - intros Hj Hd; rewrite Hj, mem_remove, String.eqb_refl; simpl.
    apply String.eqb_neq in Hd; now rewrite Hd.
  - intros [->| ->]; [reflexivity|].
    rewrite String.eqb_refl; now destruct (jwt_decodes DEFAULT_ADMIN_TOKEN).
  - intros other Hne; rewrite mem_remove.
    apply String.eqb_neq in Hne; now rewrite Hne.
Qed.

(** X21. Additions and removals compose as on a set: whatever list
    stands for the set, removing a token after adding it leaves the
    members the removal alone leaves, adding it after removing it leaves
    the members the addition alone leaves, and doing either twice is
    doing it once. *)
Theorem token_set_algebra (token : string) (tokens : list string) :
  (forall other,
      Auth.mem other (Auth.remove_admin_token token (Auth.add_admin_token token tokens))
      = Auth.mem other (Auth.remove_admin_token token tokens))
  /\ (forall other,
         Auth.mem other (Auth.add_admin_token token (Auth.remove_admin_token token tokens))
         = Auth.mem other (Auth.add_admin_token token tokens))
  /\ Auth.add_admin_token token (Auth.add_admin_token token tokens)
     = Auth.add_admin_token token tokens
  /\ Auth.remove_admin_token token (Auth.remove_admin_token token tokens)
     = Auth.remove_admin_token token tokens.
Proof.
  repeat split.
  - intros other; rewrite !mem_remove, mem_add.
    now destruct (String.eqb other token).
  - intros other; rewrite !mem_add, mem_remove.
    now destruct (String.eqb other token).
  - unfold Auth.add_admin_token at 1.
    now rewrite mem_add, String.eqb_refl.
  - unfold Auth.remove_admin_token.
    induction tokens as [|t tokens IH]; simpl; [reflexivity|].
    destruct (String.eqb t token) eqn:E; simpl; [exact IH|].
    now rewrite E, IH.
Qed.

End TokenFacts.

(** X19 on a token added to a set of one. *)
Lemma added_token_is_accepted_witness :
  "alice" <> "bob"
  /\ Auth.verify_token (fun _ => false) "root"
       (Auth.add_admin_token "bob" ["carol"]) "alice"
     = Auth.verify_token (fun _ => false) "root" ["carol"] "alice".
Proof.
  split; [discriminate|].
  apply (proj2 (added_token_is_accepted (fun _ => false) "root" "bob" ["carol"]));
    discriminate.
Defined.

(** X20 on a token that no JWT check accepts and that is not the default
    one. *)
Lemma removed_token_is_rejected_witness :
  "bob" <> "root"
  /\ Auth.verify_token (fun _ => false) "root"
       (Auth.remove_admin_token "bob" ["carol"; "bob"]) "bob"
     = Auth.HTTPException 401 "Invalid authentication token".
Proof.
  split; [discriminate|].
  apply (proj1 (removed_token_is_rejected (fun _ => false) "root" "bob"
                  ["carol"; "bob"])); [reflexivity|discriminate].
Defined.

(** ** Numbers read from the CSV file *)

Section CleanNumberFacts.

Context {float : Type}.
Variable float_of_str : string -> outcome float.
Variable is_integer : float -> bool.
Variable int_of_float : float -> Z.

Local Abbreviation clean_number :=
  (ImportData.clean_number float_of_str is_integer int_of_float).
Local Abbreviation comma_to_dot := (ImportData.replace_char "," ".").

Lemma comma_to_dot_space (c : ascii) :
  isspace (if Ascii.eqb c "," then "."%char else c) = isspace c.
Proof. destruct (Ascii.eqb_spec c ","%char) as [->|]; reflexivity. Qed.

Lemma comma_to_dot_idem (s : string) : comma_to_dot (comma_to_dot s) = comma_to_dot s.
Proof.
  induction s as [|c s IH]; [reflexivity|].
  simpl; rewrite IH; destruct (Ascii.eqb_spec c ","%char); [reflexivity|].
  now destruct (Ascii.eqb_spec c ","%char).
Qed.

Lemma comma_to_dot_lstrip (s : string) :
  comma_to_dot (lstrip s) = lstrip (comma_to_dot s).
Proof.
  induction s as [|c s IH]; [reflexivity|].
  simpl; rewrite comma_to_dot_space; now destruct (isspace c).
Qed.

Lemma comma_to_dot_rstrip (s : string) :
  comma_to_dot (rstrip s) = rstrip (comma_to_dot s).
Proof.
  induction s as [|c s IH]; [reflexivity|].
  simpl; rewrite <- IH, comma_to_dot_space.
  destruct (rstrip s); simpl; now destruct (isspace c).
Qed.

Lemma comma_to_dot_strip (s : string) :
  comma_to_dot (strip s) = strip (comma_to_dot s).
Proof. unfold strip; now rewrite comma_to_dot_rstrip, comma_to_dot_lstrip. Qed.

Lemma comma_to_dot_empty (s : string) :
  String.eqb (comma_to_dot s) "" = String.eqb s "".
Proof. now destruct s. Qed.

Lemma strip_empty_guard (s : string) :
  negb (truthy_str s) || String.eqb (strip s) "" = String.eqb (strip s) "".
Proof. now destruct s. Qed.

(** What the function computes, in terms of the text it hands to
    [float]. *)
Lemma clean_number_unfold (s : string) (default : option ImportData.number) :
  clean_number (Some s) default
  = if String.eqb (strip s) "" then Return default
    else match float_of_str (comma_to_dot (strip s)) with
         | Return num =>
             Return (Some (if is_integer num
                           then ImportData.Int (int_of_float num)
                           else ImportData.Float num))
         | Raise ValueError => Return default
         | Raise e => Raise e
         end.
Proof. unfold ImportData.clean_number; now rewrite strip_empty_guard. Qed.

(** X22. The CSV number reader works on canonical text: an absent
    value and a value of blanks only give the default; surrounding
    blanks are ignored and a comma is read as a decimal point, so a
    value, its stripped form and its form with every comma turned into a
    dot give the same result; and a [ValueError] of [float] never leaves
    the function. *)
Theorem clean_number_canonical_text (s : string) (default : option ImportData.number) :
  clean_number None default = Return default
  /\ (strip s = "" -> clean_number (Some s) default = Return default)
  /\ clean_number (Some (strip s)) default = clean_number (Some s) default
  /\ clean_number (Some (comma_to_dot s)) default = clean_number (Some s) default
  /\ clean_number (Some s) default <> Raise ValueError.
Proof.
  split; [reflexivity|]; split; [|split; [|split]].
  - intros H; now rewrite clean_number_unfold, H.
  - now rewrite !clean_number_unfold, strip_idem.
  - rewrite !clean_number_unfold, <- comma_to_dot_strip, comma_to_dot_empty.
    now rewrite comma_to_dot_idem.
  - rewrite clean_number_unfold.
    destruct (String.eqb (strip s) ""); [discriminate|].
    destruct (float_of_str (comma_to_dot (strip s))) as [num|[]]; discriminate.
Qed.

End CleanNumberFacts.

(** X22 on a value of blanks, with a reader of floats that accepts
    nothing. *)
Lemma clean_number_canonical_text_witness :
  strip "   " = ""
  /\ ImportData.clean_number (float := Z) (fun _ => Raise ValueError) (fun _ => true)
       (fun x => x) (Some "   ") (Some (ImportData.Int 0))
     = Return (Some (ImportData.Int 0)).
Proof.
  split; [reflexivity|].
  apply (proj1 (proj2 (clean_number_canonical_text (float := Z)
                         (fun _ => Raise ValueError) (fun _ => true) (fun x => x)
                         "   " (Some (ImportData.Int 0))))); reflexivity.
Defined.

(** ** Access gates and token issue *)

Section Gates.

Variable jwt_encode : Auth.payload -> string.

Lemma opt_str_neq_false (a b : option string) :
  App.opt_str_neq a b = false <-> a = b.
Proof.
  destruct a as [x|], b as [y|]; simpl; split; try congruence; try discriminate.
  - intros H; apply negb_false_iff, String.eqb_eq in H; congruence.
  - intros [= ->]; now rewrite String.eqb_refl.
Qed.

(** X23. The admin panel: with ADMIN_SECRET unset or empty the page is
    served to every request; with a non-empty ADMIN_SECRET it is served
    exactly to the requests whose secret equals it, and every other
    request, one without a secret included, gets status 403. *)
Theorem admin_panel_gate (environ : string -> option string) (secret : option string) :
  (truthy_opt_str (environ "ADMIN_SECRET") = false ->
   App.admin_panel environ secret = Auth.Ok "static/admin.html")
  /\ (forall admin_secret : string,
         environ "ADMIN_SECRET" = Some admin_secret -> admin_secret <> "" ->
         (secret = Some admin_secret ->
          App.admin_panel environ secret = Auth.Ok "static/admin.html")
         /\ (secret <> Some admin_secret ->
             App.admin_panel environ secret
             = Auth.HTTPException 403
                 "Access denied. Admin panel requires a valid secret key.")).
Proof.
  unfold App.admin_panel; split; [now intros ->|].
  intros admin_secret -> Hne.
  apply truthy_str_nonempty in Hne; cbn [truthy_opt_str]; rewrite Hne.
  split.
  - intros ->; cbn [truthy_opt_str]; rewrite Hne.
    now rewrite (proj2 (opt_str_neq_false _ _) eq_refl).
  - intros Hs.
    destruct (App.opt_str_neq secret (Some admin_secret)) eqn:E;
      [now rewrite orb_true_r|].
    apply opt_str_neq_false in E; congruence.
Qed.

(** X24. Login: a token is issued only when ADMIN_PASSWORD is set to a
    non-empty value and the request carries that very password; with
    ADMIN_PASSWORD unset or empty every request gets status 500, so an
    empty password never logs in; with a non-empty ADMIN_PASSWORD a
    different password gets status 401.  The token issued is the one
    [create_access_token] makes for the subject "admin" with the default
    lifetime. *)
Theorem login_gate (environ : string -> option string) (utcnow : Z) (password : string) :
  (truthy_opt_str (environ "ADMIN_PASSWORD") = false ->
   App.login jwt_encode environ utcnow password
   = Auth.HTTPException 500
       "Admin password not configured. Set ADMIN_PASSWORD environment variable.")
  /\ (forall admin_password : string,
         environ "ADMIN_PASSWORD" = Some admin_password -> admin_password <> "" ->
         (password <> admin_password ->
          App.login jwt_encode environ utcnow password
          = Auth.HTTPException 401 "Invalid password")
         /\ (password = admin_password ->
             App.login jwt_encode environ utcnow password
             = Auth.Ok
                 [("access_token",
                   Auth.create_access_token jwt_encode utcnow
                     [("sub", Auth.Str "admin")] None);
                  ("token_type", "bearer");
                  ("message",
                   "Use this token in the Authorization header: Bearer <token>")]))
  /\ (forall body,
         App.login jwt_encode environ utcnow password = Auth.Ok body ->
         password <> "" /\ environ "ADMIN_PASSWORD" = Some password).
Proof.
  unfold App.login; split; [now intros ->|split].
  - intros admin_password -> Hne.
    apply truthy_str_nonempty in Hne; cbn [truthy_opt_str]; rewrite Hne; simpl.
    split.
    + intros Hp; apply String.eqb_neq in Hp; now rewrite Hp.
    + intros ->; now rewrite String.eqb_refl.
  - intros body.
    destruct (environ "ADMIN_PASSWORD") as [admin_password|]; [|discriminate].
    cbn [truthy_opt_str].
    destruct (truthy_str admin_password) eqn:Ht; [|discriminate]; simpl.
    destruct (String.eqb_spec password admin_password) as [->|]; [|discriminate].
    intros _; split; [now apply truthy_str_nonempty|reflexivity].
Qed.



End Gates.

(** X23 on a request without a secret, the panel being protected. *)
Lemma admin_panel_gate_witness :
  "s3cret" <> ""
  /\ App.admin_panel (fun _ => Some "s3cret") None
     = Auth.HTTPException 403 "Access denied. Admin panel requires a valid secret key.".
Proof.
  split; [discriminate|].
  apply (proj2 (admin_panel_gate (fun _ => Some "s3cret") None) "s3cret");
    [reflexivity|discriminate|discriminate].
Defined.

(** X24 on an empty password, no ADMIN_PASSWORD being set. *)
Lemma login_gate_witness :
  truthy_opt_str None = false
  /\ App.login (fun _ => "token") (fun _ => None) 0 ""
     = Auth.HTTPException 500
         "Admin password not configured. Set ADMIN_PASSWORD environment variable.".
Proof.
  split; [reflexivity|].
  apply (proj1 (login_gate (fun _ => "token") (fun _ => None) 0 "")); reflexivity.
Defined.


(** ** Years of any type *)

Section AnyYear.

(** On a year that [int] accepts the function does what it does on that
    integer, once the guard is passed. *)
Lemma determine_on_return
      (cpu_model : string) (year_truthy : bool) (year : Z) (family : option string) :
  determine_cpu_generation_on cpu_model year_truthy (Return year) family
  = if year_truthy then determine_cpu_generation cpu_model (Some year) family
    else Return "".
Proof.
  unfold determine_cpu_generation_on.
  destruct year_truthy; [|now rewrite orb_true_r].
  destruct (string_dec cpu_model "") as [->|Hm]; [reflexivity|].
  destruct (vendor_dispatch_returns (normalize cpu_model)
              (normalize (or_empty family)) year) as [r Hr].
  rewrite (determine_by_dispatch_any_year _ _ _ r Hm Hr).
  destruct cpu_model; [congruence|]; simpl; now rewrite Hr.
Qed.

Lemma determine_on_caught
      (cpu_model : string) (year_truthy : bool) (e : exn) (family : option string) :
  e = ValueError \/ e = TypeError ->
  determine_cpu_generation_on cpu_model year_truthy (Raise e) family = Return "".
Proof.
  intros [->| ->]; unfold determine_cpu_generation_on;
    now destruct (negb (truthy_str cpu_model) || negb year_truthy).
Qed.

Lemma determine_on_overflow
      (cpu_model : string) (year_truthy : bool) (family : option string) :
  determine_cpu_generation_on cpu_model year_truthy (Raise OverflowError) family
  = if negb (truthy_str cpu_model) || negb year_truthy then Return ""
    else Raise OverflowError.
Proof.
  unfold determine_cpu_generation_on;
    now destruct (negb (truthy_str cpu_model) || negb year_truthy).
Qed.

Lemma determine_any_year_declared
      (cpu_model : string) (launch_year : option Z) (family : option string) :
  determine_cpu_generation_any_year cpu_model (of_declared launch_year) family
  = determine_cpu_generation cpu_model launch_year family.
Proof. now destruct launch_year. Qed.

End AnyYear.

Section FailureModes.






(** A year of any of the three types: the guard answers, or [int]
    accepts the year and the declared behaviour follows, or NaN is
    absorbed by the handler, or an infinity escapes it. *)
Lemma determine_any_year_cases
      (cpu_model : string) (launch_year : year_value) (family : option string) :
  determine_cpu_generation_any_year cpu_model launch_year family = Return ""
  \/ (exists year,
         int_of_year launch_year = Return year
         /\ determine_cpu_generation_any_year cpu_model launch_year family
            = determine_cpu_generation cpu_model (Some year) family)
  \/ (cpu_model <> ""
      /\ (exists negative, launch_year = YFloat (FInf negative))
      /\ determine_cpu_generation_any_year cpu_model launch_year family
         = Raise OverflowError).
Proof.
  unfold determine_cpu_generation_any_year.
  destruct launch_year as [|z|[|negative|mantissa exponent]]; simpl.
  - left; apply determine_on_caught; auto.
  - rewrite determine_on_return.
    destruct (negb (z =? 0)); [right; left; eauto|now left].
  - left; apply determine_on_caught; auto.
  - rewrite determine_on_overflow; simpl; rewrite orb_false_r.
    destruct cpu_model; simpl; [now left|].
    right; right; repeat split; eauto; discriminate.
  - rewrite determine_on_return.
    destruct (negb (mantissa =? 0)); [right; left; eauto|now left].
Qed.

End FailureModes.




(** ** The backfill *)

Lemma determine_any_year_result
      (cpu_model : string) (launch_year : year_value) (family : option string) :
  match launch_year with
  | YFloat (FInf _) =>
      cpu_model <> "" ->
      determine_cpu_generation_any_year cpu_model launch_year family
      = Raise OverflowError
  | _ =>
      exists label,
        determine_cpu_generation_any_year cpu_model launch_year family = Return label
        /\ In label reachable_labels
  end.
Proof.
  assert (Hempty : In "" reachable_labels) by in_labels.
  destruct (determine_any_year_cases cpu_model launch_year family)
    as [H|[(year & Hi & H)|(Hm & [negative E] & H)]].
  - destruct launch_year as [| |[| |]]; eauto.
    intros Hm; unfold determine_cpu_generation_any_year in *; simpl in *.
    rewrite determine_on_overflow in H; simpl in H.
    destruct cpu_model; [congruence|discriminate].
  - destruct (determine_labels cpu_model (Some year) family) as [l Hl].
    rewrite <- H in Hl.
    destruct launch_year as [| |[| |]]; eauto; discriminate Hi.
  - subst launch_year; auto.
Qed.

Section BackfillFacts.

Context {float : Type}.

Implicit Types cpu : Db.CPUSpec float.

Lemma overflows_year cpu :
  overflows cpu = true ->
  truthy_opt_str (Db.codename cpu) = false
  /\ truthy_opt_str (Db.cpu_model cpu) = true
  /\ exists negative, Db.launch_year cpu = YFloat (FInf negative).
Proof.
  unfold overflows; intros H.
  apply andb_true_iff in H as [H Hy]; apply andb_true_iff in H as [Hc Hm].
  apply negb_true_iff in Hc; repeat split; auto.
  destruct (Db.launch_year cpu) as [| |[| |]]; try discriminate; eauto.
Qed.

Lemma update_codename_cases cpu (n : Z) :
  (update_codename cpu n = Return (cpu, n) /\ settled cpu /\ overflows cpu = false)
  \/ (exists cpu',
         update_codename cpu n = Return (cpu', n + 1) /\ filled cpu cpu'
         /\ overflows cpu = false)
  \/ (update_codename cpu n = Raise OverflowError /\ overflows cpu = true).
Proof.
  unfold update_codename, settled, filled, overflows.
  destruct (truthy_opt_str (Db.codename cpu)) eqn:Hc; [left; simpl; auto|].
  destruct (truthy_opt_str (Db.cpu_model cpu)) eqn:Hm; [|left; simpl; auto].
  destruct (truthy_year (Db.launch_year cpu)) eqn:Hy.
  2:{ left; simpl; repeat split; auto.
      destruct (Db.launch_year cpu) as [| |[| |]]; auto; discriminate. }
  destruct (Db.cpu_model cpu) as [m|]; [|discriminate]; simpl.
  assert (Hne : m <> "") by (now apply truthy_str_nonempty).
  pose proof (determine_any_year_result m (Db.launch_year cpu) (Db.family cpu)) as Hr.
  destruct (Db.launch_year cpu) as [| |[|negative|]] eqn:Ey.
  4:{ right; right; rewrite (Hr Hne); auto. }
  all: destruct Hr as [l [Hl _]]; rewrite Hl; simpl;
    destruct (truthy_str l) eqn:Ht;
    [right; left; eexists; split; [reflexivity|]; split; [|reflexivity];
     split; [reflexivity|]; exists m, l; repeat split; auto;
     now apply truthy_str_nonempty
    |left; split; [reflexivity|]; split; [|reflexivity];
     do 3 right; exists m; split; [reflexivity|];
     destruct l; [exact Hl|discriminate]].
Qed.

Lemma settled_fixed cpu (n : Z) :
  settled cpu -> update_codename cpu n = Return (cpu, n).
Proof.
  unfold update_codename; intros [Hs|[Hs|[Hs|(m & Hm & Hd)]]].
  - now rewrite Hs.
  - now rewrite Hs, andb_false_r.
  - now rewrite Hs, andb_false_r.
  - rewrite Hm, Hd; simpl.
    now destruct (negb (truthy_opt_str (Db.codename cpu)) && truthy_str m
                  && truthy_year (Db.launch_year cpu)).
Qed.

Lemma filled_settled cpu cpu' : filled cpu cpu' -> settled cpu'.
Proof.
  intros (_ & m & l & _ & _ & Hl & ->); left; simpl.
  now apply truthy_str_nonempty.
Qed.

Lemma filled_unlabelled cpu cpu' :
  filled cpu cpu' ->
  truthy_opt_str (Db.codename cpu) = false /\ truthy_opt_str (Db.codename cpu') = true.
Proof.
  intros (Hc & m & l & _ & _ & Hl & ->); split; [exact Hc|simpl].
  now apply truthy_str_nonempty.
Qed.

Lemma unlabelled_nil : unlabelled (@nil (Db.CPUSpec float)) = 0.
Proof. reflexivity. Qed.

Lemma unlabelled_cons cpu (rest : list (Db.CPUSpec float)) :
  unlabelled (cpu :: rest)
  = (if truthy_opt_str (Db.codename cpu) then 0 else 1) + unlabelled rest.
Proof.
  unfold unlabelled; cbn [filter].
  destruct (truthy_opt_str (Db.codename cpu)); cbn [negb List.length];
    [reflexivity|rewrite Nat2Z.inj_succ; lia].
Qed.

Lemma unlabelled_nonneg (table : list (Db.CPUSpec float)) : 0 <= unlabelled table.
Proof. unfold unlabelled; lia. Qed.

Lemma unlabelled_le_length (table : list (Db.CPUSpec float)) :
  unlabelled table <= Z.of_nat (List.length table).
Proof. unfold unlabelled; apply inj_le, filter_length_le. Qed.

End BackfillFacts.

Section BackfillLoop.

Context {float : Type}.

Implicit Types (cpu : Db.CPUSpec float) (table cpus : list (Db.CPUSpec float)).

(** The loop, row by row, on a table no row of which makes the
    classifier raise. *)
Lemma update_loop_spec cpus (n : Z) :
  existsb overflows cpus = false ->
  exists cpus',
    update_loop cpus n = Return (cpus', n + (unlabelled cpus - unlabelled cpus'))
    /\ Forall2 (fun cpu cpu' => (cpu' = cpu /\ settled cpu) \/ filled cpu cpu')
               cpus cpus'
    /\ unlabelled cpus' <= unlabelled cpus.
Proof.
  revert n; induction cpus as [|cpu rest IH]; intros n Ho.
  - exists []; rewrite (@unlabelled_nil float); repeat split; try lia; [|constructor].
    simpl; do 2 f_equal; lia.
  - cbn [existsb] in Ho; apply orb_false_iff in Ho as [Ho Hrest].
    cbn [update_loop].
    destruct (update_codename_cases cpu n)
      as [(H & Hs & _)|[(cpu' & H & Hf & _)|[_ H]]]; [| |congruence];
      rewrite H; simpl.
    + destruct (IH n Hrest) as (rest' & -> & HF & Hb); simpl.
      exists (cpu :: rest'); rewrite !unlabelled_cons.
      split; [do 2 f_equal; lia|split; [constructor; auto|lia]].
    + destruct (IH (n + 1) Hrest) as (rest' & -> & HF & Hb); simpl.
      destruct (filled_unlabelled _ _ Hf) as [H0 H1].
      exists (cpu' :: rest'); rewrite !unlabelled_cons, H0, H1.
      split; [do 2 f_equal; lia|split; [constructor; auto|lia]].
Qed.

(** The loop on a table one row of which makes the classifier raise. *)
Lemma update_loop_overflow cpus (n : Z) :
  existsb overflows cpus = true -> update_loop cpus n = Raise OverflowError.
Proof.
  revert n; induction cpus as [|cpu rest IH]; intros n Ho; [discriminate|].
  cbn [existsb] in Ho; cbn [update_loop].
  destruct (update_codename_cases cpu n)
    as [(H & _ & Hn)|[(cpu' & H & _ & Hn)|[H _]]]; rewrite H; simpl; [| |reflexivity];
    rewrite Hn in Ho; simpl in Ho; now rewrite (IH _ Ho).
Qed.

Lemma update_loop_settled cpus (n : Z) :
  Forall settled cpus -> update_loop cpus n = Return (cpus, n).
Proof.
  intros H; revert n; induction H as [|cpu rest Hs _ IH]; intros n; [reflexivity|].
  cbn [update_loop]; rewrite (settled_fixed _ _ Hs); simpl; now rewrite IH.
Qed.

Lemma update_all_codenames_spec table :
  existsb overflows table = false ->
  exists table',
    update_all_codenames table
    = (table', Return (unlabelled table - unlabelled table'))
    /\ Forall2 (fun cpu cpu' => (cpu' = cpu /\ settled cpu) \/ filled cpu cpu')
               table table'
    /\ unlabelled table' <= unlabelled table.
Proof.
  intros Ho; destruct (update_loop_spec table 0 Ho) as (table' & H & HF & Hb).
  exists table'; unfold update_all_codenames; rewrite H; auto.
Qed.

Lemma update_all_codenames_overflow table :
  existsb overflows table = true ->
  update_all_codenames table = (table, Raise OverflowError).
Proof.
  intros Ho; unfold update_all_codenames; now rewrite (update_loop_overflow _ 0 Ho).
Qed.

End BackfillLoop.

Section BackfillTheorems.

Context {float : Type}.

Implicit Types (cpu : Db.CPUSpec float) (table : list (Db.CPUSpec float)).

(** X13. All the backfill does to a row is fill in an empty codename.
    On a table without a row that has no codename, a model and an
    infinite float as its year, the call commits: it ends without an
    exception, the table has as many rows as before, a row that had a
    codename is left as it was, and a row that changed differs from the
    old one in its codename only, which is the non-empty label the
    classifier gives for the row's model, year and family.  On a table
    with such a row the classifier raises [OverflowError], the call
    raises it again and the table is rolled back to what it was. *)
Theorem backfill_fills_only_empty_codenames table :
  (existsb overflows table = false ->
   exists table' updated_count,
     update_all_codenames table = (table', Return updated_count)
     /\ List.length table' = List.length table
     /\ Forall2 (fun cpu cpu' => cpu' = cpu \/ filled cpu cpu') table table'
     /\ Forall2 (fun cpu cpu' =>
                   (truthy_opt_str (Db.codename cpu) = true -> cpu' = cpu)
                   /\ Db.set_codename cpu' None = Db.set_codename cpu None)
                table table')
  /\ (existsb overflows table = true ->
      update_all_codenames table = (table, Raise OverflowError)).
Proof.
  split; [|apply update_all_codenames_overflow].
  intros Ho; destruct (update_all_codenames_spec table Ho) as (table' & H & HF & _).
  exists table', (unlabelled table - unlabelled table').
  split; [exact H|]; split; [symmetry; exact (Forall2_length HF)|].
  split; (eapply Forall2_impl; [|exact HF]); intros cpu cpu' [[-> _]|Hf]; auto.
  destruct Hf as (Hc & m & l & _ & _ & _ & ->); split; [congruence|reflexivity].
Qed.

(** X14. When the backfill commits, the count it reports is the number
    of rows that got a codename: the number of rows without a codename
    before the call minus their number after it; it lies between 0 and
    the number of rows. *)
Theorem backfill_count table :
  existsb overflows table = false ->
  exists table',
    update_all_codenames table
    = (table', Return (unlabelled table - unlabelled table'))
    /\ 0 <= unlabelled table - unlabelled table' <= Z.of_nat (List.length table).
Proof.
  intros Ho; destruct (update_all_codenames_spec table Ho) as (table' & H & _ & Hb).
  exists table'; split; [exact H|].
  pose proof (unlabelled_le_length table); pose proof (unlabelled_nonneg table').
  lia.
Qed.

(** X15. The backfill is idempotent where it commits: after a call that
    committed every row has a codename, or lacks a model or a year, or
    is one the classifier has no label for; a second call leaves the
    table as the first one left it and reports 0 updates. *)
Theorem backfill_idempotent table :
  existsb overflows table = false ->
  let table' := fst (update_all_codenames table) in
  Forall settled table'
  /\ update_all_codenames table' = (table', Return 0).
Proof.
  intros Ho; destruct (update_all_codenames_spec table Ho) as (table' & H & HF & _).
  rewrite H; cbn [fst].
  assert (Hs : Forall settled table').
  { clear H Ho; induction HF as [|cpu cpu' rest rest' Hc _ IH]; constructor; auto.
    destruct Hc as [[-> Hc]|Hc]; [exact Hc|exact (filled_settled _ _ Hc)]. }
  split; [exact Hs|].
  unfold update_all_codenames; now rewrite (update_loop_settled _ 0 Hs).
Qed.

(** X16. The backfill writes labels of the classifier's vocabulary only:
    the codename of a row after the call is the one it had, or one of
    the ten AMD and Xeon Scalable labels; the empty string, "Bergamo"
    and the three legacy labels are never written. *)
Theorem backfill_writes_known_labels table :
  Forall2 (fun cpu cpu' =>
             Db.codename cpu' = Db.codename cpu
             \/ exists label,
                 Db.codename cpu' = Some label
                 /\ In label ["Naples"; "Rome"; "Milan"; "Genoa"; "Siena"; "Skylake";
                              "Cascade Lake"; "Ice Lake"; "Sapphire Rapids";
                              "Emerald Rapids"])
          table (fst (update_all_codenames table)).
Proof.
  destruct (existsb overflows table) eqn:Ho.
  { rewrite (update_all_codenames_overflow _ Ho); cbn [fst].
    clear Ho; induction table; constructor; auto. }
  destruct (update_all_codenames_spec table Ho) as (table' & H & HF & _).
  rewrite H; cbn [fst].
  eapply Forall2_impl; [|exact HF]; intros cpu cpu' [[-> _]|Hf]; [now left|right].
  destruct Hf as (_ & m & l & _ & Hd & Hl & ->); exists l; split; [reflexivity|].
  pose proof (determine_any_year_result m (Db.launch_year cpu) (Db.family cpu)) as Hr.
  assert (Hin : In l reachable_labels).
  { destruct (Db.launch_year cpu) as [| |[|negative|]].
    4:{ destruct (string_dec m "") as [->|Hm]; [|rewrite (Hr Hm) in Hd; discriminate].
        change (Return "" = Return l) in Hd; congruence. }
    all: destruct Hr as [l' [Hd' Hin]]; assert (l' = l) by congruence;
      subst l'; exact Hin. }
  unfold reachable_labels in Hin; simpl in Hin; simpl; intuition congruence.
Qed.

End BackfillTheorems.

(** X13 on a table of one row. *)
Lemma backfill_fills_only_empty_codenames_witness :
  existsb overflows [infinite_year_row] = true
  /\ update_all_codenames [infinite_year_row]
     = ([infinite_year_row], Raise OverflowError).
Proof.
  split; [reflexivity|].
  apply (proj2 (backfill_fills_only_empty_codenames [infinite_year_row])).
  reflexivity.
Defined.

(** X14 on a table of one row. *)
Lemma backfill_count_witness :
  existsb overflows [naples_row] = false
  /\ exists table',
      update_all_codenames [naples_row]
      = (table', Return (unlabelled [naples_row] - unlabelled table')).
Proof.
  split; [reflexivity|].
  destruct (backfill_count [naples_row] eq_refl) as (table' & H & _).
  exists table'; exact H.
Defined.

(** X15 on a table of one row. *)
Lemma backfill_idempotent_witness :
  existsb overflows [naples_row] = false
  /\ update_all_codenames (fst (update_all_codenames [naples_row]))
     = (fst (update_all_codenames [naples_row]), Return 0).
Proof.
  split; [reflexivity|].
  exact (proj2 (backfill_idempotent [naples_row] eq_refl)).
Defined.

(** ** Record creation *)

Section CreationTheorems.

Context {float : Type}.

Implicit Types (cpu : Api.CPUSpecCreate float).

Lemma create_cpu_codename_cases cpu :
  (truthy_opt_str (Api.codename cpu) = false
   /\ exists cpu_model label,
       Api.cpu_model cpu = Some cpu_model /\ cpu_model <> ""
       /\ truthy_int (Api.launch_year cpu) = true
       /\ determine_cpu_generation cpu_model (Api.launch_year cpu) (Api.family cpu)
          = Return label
       /\ create_cpu_codename cpu = Return (or_none label))
  \/ ((truthy_opt_str (Api.codename cpu) = true
       \/ truthy_opt_str (Api.cpu_model cpu) = false
       \/ truthy_int (Api.launch_year cpu) = false)
      /\ create_cpu_codename cpu = Return (Api.codename cpu)).
Proof.
  unfold create_cpu_codename.
  destruct (truthy_opt_str (Api.codename cpu)) eqn:Hc; [right; simpl; auto|].
  destruct (truthy_opt_str (Api.cpu_model cpu)) eqn:Hm; [|right; simpl; auto].
  destruct (truthy_int (Api.launch_year cpu)) eqn:Hy; [|right; simpl; auto].
  destruct (Api.cpu_model cpu) as [m|]; [|discriminate]; simpl.
  destruct (determine_labels m (Api.launch_year cpu) (Api.family cpu)) as [l [Hl _]].
  left; split; [reflexivity|]; exists m, l; rewrite Hl; simpl.
  repeat split; auto; now apply truthy_str_nonempty.
Qed.

(** X17. The codename of a new record: the construction of the row of
    lines 299-315, which comes before the calls of the session, ends
    without an exception and copies every column of the request; a
    non-empty codename of the
    request is stored as it is and the classifier is not consulted; with
    no codename but a model and a year, the stored codename is absent or
    one of the ten labels of the classifier, never the empty string;
    with no codename and no model or no year, the codename of the
    request is stored unchanged. *)
Theorem create_cpu_codename_rule cpu :
  exists codename,
    create_cpu cpu
    = Return {| Db.id := None;
                Db.cpu_model_name := Some (Api.cpu_model_name cpu);
                Db.family := Api.family cpu;
                Db.cpu_model := Api.cpu_model cpu;
                Db.codename := codename;
                Db.cores := Api.cores cpu;
                Db.threads := Api.threads cpu;
                Db.tdp_watts := Api.tdp_watts cpu;
                Db.launch_year := of_declared (Api.launch_year cpu);
                Db.max_turbo_frequency_ghz := Api.max_turbo_frequency_ghz cpu;
                Db.l3_cache_mb := Api.l3_cache_mb cpu;
                Db.max_memory_tb := Api.max_memory_tb cpu |}
    /\ (truthy_opt_str (Api.codename cpu) = true -> codename = Api.codename cpu)
    /\ (truthy_opt_str (Api.codename cpu) = false ->
        truthy_opt_str (Api.cpu_model cpu) = true ->
        truthy_int (Api.launch_year cpu) = true ->
        codename = None
        \/ exists label,
            codename = Some label
            /\ In label ["Naples"; "Rome"; "Milan"; "Genoa"; "Siena"; "Skylake";
                         "Cascade Lake"; "Ice Lake"; "Sapphire Rapids";
                         "Emerald Rapids"])
    /\ (truthy_opt_str (Api.cpu_model cpu) = false
        \/ truthy_int (Api.launch_year cpu) = false ->
        codename = Api.codename cpu).
Proof.
  unfold create_cpu.
  destruct (create_cpu_codename_cases cpu)
    as [(Hc & m & l & Hm & Hne & Hy & Hd & ->)|[Hc ->]]; simpl.
  - exists (or_none l); split; [reflexivity|]; split; [congruence|]; split.
    + intros _ _ _.
      destruct (determine_labels m (Api.launch_year cpu) (Api.family cpu))
        as [l' [Hd' Hin]].
      assert (l' = l) by congruence; subst l'.
      unfold or_none; destruct l as [|c l]; [now left|right].
      exists (String c l); split; [reflexivity|].
      unfold reachable_labels in Hin; simpl in Hin; simpl; intuition congruence.
    + rewrite Hm; simpl; intros [H|H]; [|congruence].
      apply truthy_str_nonempty in Hne; congruence.
  - exists (Api.codename cpu); split; [reflexivity|]; split; [auto|]; split; [|auto].
    intros H0 H1 H2; destruct Hc as [Hc|[Hc|Hc]]; congruence.
Qed.

(** X18. A record created through the API is one the backfill leaves
    alone: whatever key the database gives the new row, the body of the
    backfill loop returns it unchanged and does not count it. *)
Theorem created_row_is_settled cpu (row : Db.CPUSpec float) :
  create_cpu cpu = Return row ->
  forall (key : option Z) (updated_count : Z),
    update_codename (Db.set_id row key) updated_count
    = Return (Db.set_id row key, updated_count).
Proof.
  intros H key n; apply settled_fixed; unfold settled; simpl.
  unfold create_cpu in H.
  assert (Ht : truthy_year (of_declared (Api.launch_year cpu))
               = truthy_int (Api.launch_year cpu))
    by (now destruct (Api.launch_year cpu)).
  destruct (create_cpu_codename_cases cpu)
    as [(Hc & m & l & Hm & Hne & Hy & Hd & Hr)|[Hc Hr]];
    rewrite Hr in H; simpl in H; injection H as <-; simpl; rewrite Ht.
  - destruct l as [|c l]; [|now left].
    do 3 right; exists m; rewrite determine_any_year_declared; auto.
  - tauto.
Qed.

End CreationTheorems.

(** X17 on a request for "EPYC 7301" of 2017 without a codename. *)
Lemma create_cpu_codename_rule_witness :
  truthy_opt_str (Api.codename naples_request) = false
  /\ truthy_opt_str (Api.cpu_model naples_request) = true
  /\ truthy_int (Api.launch_year naples_request) = true
  /\ exists row,
      create_cpu naples_request = Return row
      /\ (Db.codename row = None
          \/ exists label,
              Db.codename row = Some label
              /\ In label ["Naples"; "Rome"; "Milan"; "Genoa"; "Siena"; "Skylake";
                           "Cascade Lake"; "Ice Lake"; "Sapphire Rapids";
                           "Emerald Rapids"]).
Proof.
  repeat (split; [reflexivity|]).
  destruct (create_cpu_codename_rule naples_request) as (c & Hr & _ & H & _).
  eexists; split; [exact Hr|].
  cbn [Db.codename]; apply H; reflexivity.
Defined.

(** X18 on the same request, stored under the key 1. *)
Lemma created_row_is_settled_witness :
  exists row : Db.CPUSpec unit,
    create_cpu naples_request = Return row
    /\ update_codename (Db.set_id row (Some 1)) 0 = Return (Db.set_id row (Some 1), 0).
Proof.
  eexists; split; [reflexivity|].
  exact (created_row_is_settled naples_request _ eq_refl (Some 1) 0).
Defined.
